(** * resume-mcp: the access-gating and tool-dispatch engine of src/index.ts

    A shallow embedding of the Cloudflare worker: the tool catalog, the tool
    executors, the per-caller session map, the guestbook namespace, the
    JSON-RPC dispatcher and the [fetch] handler, followed by the properties
    the specification states about them.

    Conventions of the embedding.
    - A JavaScript value that may be [undefined] is an [option].
    - [JSON.stringify v] is represented by [v] itself: the text of a tool
      response is kept as the structured payload that is serialised.
    - An ISO timestamp is represented by its epoch milliseconds
      ([new Date(t.toISOString()).getTime() = t]).
    - The first eight bytes of the salted SHA-256 digest are kept symbolic
      ([Sha256Hex8]).
    - What [Date] and [crypto.randomUUID] return is read from two oracles
      carried by the world ([clock], [uuids]).
    - Arguments of a tool call are well typed for the tool's [inputSchema];
      a numeric [limit] is an integer.  JSON that is not of that shape
      ([params: null], a [tag] that is no string, a batch entry that is no
      object) is outside the embedding.
    - [toLowerCase] changes the letters A to Z only.
    - A batch one of whose calls throws is answered with the parse error;
      what the calls still suspended then would do later is not followed.
    - The responses carry no headers: the content type is not modelled, and
      the CORS headers are modelled on their own ([corsHeaders],
      [allowed_origin]). *)

From Stdlib Require Import ZArith String Ascii List Bool Lia.
From Stdlib Require Import Sorting.Sorted Sorting.Permutation.
From stdpp Require Import gmap strings pretty list fin_maps.

Open Scope string_scope.

(* ===================================================================== *)
(** * JavaScript helpers                                                   *)
(* ===================================================================== *)

Module JS.

(** Truthiness of a string: only the empty string is falsy. *)
Definition truthy (s : string) : bool :=
  match s with
  | EmptyString => false
  | String _ _ => true
  end.

(** Truthiness of a possibly undefined string. *)
Definition truthy_opt (o : option string) : bool :=
  match o with
  | Some s => truthy s
  | None => false
  end.

(** [o || d] for a possibly undefined string [o]. *)
Definition or_else (o : option string) (d : string) : string :=
  match o with
  | Some s => if truthy s then s else d
  | None => d
  end.

(** [`${o}`]: an undefined value is rendered as the word undefined. *)
Definition template (o : option string) : string :=
  match o with
  | Some s => s
  | None => "undefined"
  end.

(** [String.prototype.toLowerCase], on the ASCII range. *)
Definition lower_ascii (c : ascii) : ascii :=
  let n := nat_of_ascii c in
  if (65 <=? n)%nat && (n <=? 90)%nat then ascii_of_nat (n + 32) else c.

Fixpoint toLowerCase (s : string) : string :=
  match s with
  | EmptyString => EmptyString
  | String c r => String (lower_ascii c) (toLowerCase r)
  end.

(** [Array.prototype.includes] on an array of strings. *)
Definition includes (l : list string) (x : string) : bool :=
  existsb (String.eqb x) l.

(** [s.slice(0, n)]. *)
Definition slice0 (n : nat) (s : string) : string := substring 0 n s.

(** The property names every plain object inherits from [Object.prototype];
    the [in] operator sees them as well as the object's own keys. *)
Definition Object_prototype : list string :=
  [ "constructor"; "__defineGetter__"; "__defineSetter__"; "hasOwnProperty";
    "__lookupGetter__"; "__lookupSetter__"; "isPrototypeOf";
    "propertyIsEnumerable"; "toString"; "valueOf"; "__proto__";
    "toLocaleString" ].

(** A plain object with values in [V]: its own properties, in order. *)
Definition object (V : Type) : Type := list (string * V).

Fixpoint own {V : Type} (o : object V) (k : string) : option V :=
  match o with
  | [] => None
  | (k', v) :: r => if String.eqb k k' then Some v else own r k
  end.

(** What reading [o[k]] gives: an own value, a member inherited from
    [Object.prototype], or [undefined]. *)
Inductive member (V : Type) : Type :=
| OwnValue (v : V)
| Inherited (k : string)
| Undefined.
Arguments OwnValue {V} v.
Arguments Inherited {V} k.
Arguments Undefined {V}.

Definition get {V : Type} (o : object V) (k : string) : member V :=
  match own o k with
  | Some v => OwnValue v
  | None => if includes Object_prototype k then Inherited k else Undefined
  end.

(** [k in o]. *)
Definition has_property {V : Type} (k : string) (o : object V) : bool :=
  match own o k with
  | Some _ => true
  | None => includes Object_prototype k
  end.

(** The outcome of evaluating code that may throw. *)
Inductive completion (A : Type) : Type :=
| Normal (a : A)
| Throw (message : string).
Arguments Normal {A} a.
Arguments Throw {A} message.

(** A stable sort by a comparator [cmp a b] (negative or zero: [a] stays
    before [b]), as [Array.prototype.sort] is specified. *)
Section Sort.
Context {A : Type} (cmp : A -> A -> Z).

Fixpoint sort_insert (x : A) (l : list A) : list A :=
  match l with
  | [] => [x]
  | y :: r => if (cmp x y <=? 0)%Z then x :: y :: r else y :: sort_insert x r
  end.

Fixpoint sort (l : list A) : list A :=
  match l with
  | [] => []
  | x :: r => sort_insert x (sort r)
  end.
End Sort.

End JS.

(* ===================================================================== *)
(** * Data model                                                           *)
(* ===================================================================== *)

(** The [id] of a JSON-RPC request; a notification carries none, and the
    parse-error response carries [null]. *)
Inductive RpcId : Type :=
| IdString (s : string)
| IdNumber (n : Z)
| IdNull
| IdMissing.

(** [interface GuestbookEntry]. *)
Inductive IpHash : Type :=
| Sha256Hex8 (salted : string).

Record GuestbookEntry : Type := {
  entry_name : option string;
  entry_message : option string;
  entry_agent_id : option string;
  entry_contact : option string;
  entry_timestamp : Z;
  entry_ip_hash : option IpHash
}.

(** [interface SessionState]. *)
Record SessionState : Type := {
  hasAccess : bool;
  agentToken : option string
}.

(** The static document [data/profile.json], as far as the code reads it. *)
Record Profile : Type := {
  profile_name : string;
  profile_tagline : string;
  profile_links : JS.object string;
  profile_contact : JS.object string
}.

Record Project : Type := {
  project_name : string;
  tags : list string;
  featured : bool
}.

Record Article : Type := {
  article_title : string;
  platform : string
}.

Record Position : Type := {
  position_title : string;
  current : bool
}.

Record ProfileData : Type := {
  profile : Profile;
  projects : list Project;
  writing : list Article;
  experience : list Position;
  skills : JS.object (list string)
}.

(** The arguments object of a [tools/call]: every field a tool reads. *)
Record Arguments : Type := {
  arg_tag : option string;
  arg_featured_only : option bool;
  arg_platform : option string;
  arg_limit : option Z;
  arg_current_only : option bool;
  arg_category : option string;
  arg_name : option string;
  arg_message : option string;
  arg_agent_id : option string;
  arg_contact : option string
}.

(** [{}] *)
Definition no_arguments : Arguments :=
  {| arg_tag := None; arg_featured_only := None; arg_platform := None;
     arg_limit := None; arg_current_only := None; arg_category := None;
     arg_name := None; arg_message := None; arg_agent_id := None;
     arg_contact := None |}.

(* ===================================================================== *)
(** * Tool catalog                                                         *)
(* ===================================================================== *)

Record Property : Type := {
  prop_name : string;
  prop_type : string;
  prop_description : string
}.

Record Tool : Type := {
  name : string;
  description : string;
  properties : list Property;
  required : list string
}.

Definition TOOLS : list Tool :=
  [ {| name := "get_profile";
       description := "Get basic profile information including name, tagline, links, and contact info.";
       properties := [];
       required := [] |};
    {| name := "get_projects";
       description := "Get list of projects, optionally filtered by tag.";
       properties :=
         [ {| prop_name := "tag"; prop_type := "string";
              prop_description := "Filter projects by tag" |};
           {| prop_name := "featured_only"; prop_type := "boolean";
              prop_description := "Only return featured projects" |} ];
       required := [] |};
    {| name := "get_writing";
       description := "Get list of articles and blog posts.";
       properties :=
         [ {| prop_name := "platform"; prop_type := "string";
              prop_description := "Filter by platform" |};
           {| prop_name := "limit"; prop_type := "number";
              prop_description := "Max posts to return" |} ];
       required := [] |};
    {| name := "get_experience";
       description := "Get work experience history. Requires guestbook entry or Agent Token.";
       properties :=
         [ {| prop_name := "current_only"; prop_type := "boolean";
              prop_description := "Only return current position(s)" |} ];
       required := [] |};
    {| name := "get_skills";
       description := "Get technical skills by category. Requires guestbook entry or Agent Token.";
       properties :=
         [ {| prop_name := "category"; prop_type := "string";
              prop_description := "Filter by category: languages, frameworks, infrastructure, domains" |} ];
       required := [] |};
    {| name := "leave_message";
       description := "Leave a message in the guestbook. Unlocks access to gated tools.";
       properties :=
         [ {| prop_name := "name"; prop_type := "string";
              prop_description := "Your name or identifier" |};
           {| prop_name := "message"; prop_type := "string";
              prop_description := "Your message or reason for visiting" |};
           {| prop_name := "agent_id"; prop_type := "string";
              prop_description := "Optional agent identifier" |};
           {| prop_name := "contact"; prop_type := "string";
              prop_description := "Optional contact info" |} ];
       required := ["name"; "message"] |} ].

Definition FREE_TOOLS : list string :=
  ["get_profile"; "get_projects"; "get_writing"; "leave_message"].

Definition GATED_TOOLS : list string :=
  ["get_experience"; "get_skills"].

(** [TOOLS.map(t => t.name)] *)
Definition tool_names : list string := map name TOOLS.

(** Membership of a tool name in the two tiers. *)
Definition Free (t : string) : bool := JS.includes FREE_TOOLS t.
Definition Gated (t : string) : bool := JS.includes GATED_TOOLS t.

(* ===================================================================== *)
(** * Tool executors                                                       *)
(* ===================================================================== *)

Section Executors.

(** [import profileData from '../data/profile.json'] *)
Variable profileData : ProfileData.

Definition getProfile : Profile := profile profileData.

Definition getProjects (params : Arguments) : list Project :=
  let projects := projects profileData in
  let projects :=
    match arg_tag params with
    | Some tag =>
        if JS.truthy tag
        then List.filter (fun p => JS.includes (tags p) (JS.toLowerCase tag)) projects
        else projects
    | None => projects
    end in
  let projects :=
    match arg_featured_only params with
    | Some true => List.filter (fun p => featured p) projects
    | _ => projects
    end in
  projects.

Definition getWriting (params : Arguments) : list Article :=
  let writing := writing profileData in
  let writing :=
    match arg_platform params with
    | Some pf =>
        if JS.truthy pf
        then List.filter (fun w => String.eqb (platform w) pf) writing
        else writing
    | None => writing
    end in
  let writing :=
    match arg_limit params with
    | Some limit =>
        if negb (limit =? 0)%Z && (0 <? limit)%Z
        then firstn (Z.to_nat limit) writing
        else writing
    | None => writing
    end in
  writing.

Definition getExperience (params : Arguments) : list Position :=
  let experience := experience profileData in
  match arg_current_only params with
  | Some true => List.filter (fun e => current e) experience
  | _ => experience
  end.

(** The skills object as a value whose members are all its own. *)
Definition whole (o : JS.object (list string)) : JS.object (JS.member (list string)) :=
  map (fun kv => (fst kv, JS.OwnValue (snd kv))) o.

Definition getSkills (params : Arguments) : JS.object (JS.member (list string)) :=
  let skills := skills profileData in
  match arg_category params with
  | Some category =>
      if JS.truthy category && JS.has_property category skills
      then [(category, JS.get skills category)]
      else whole skills
  | None => whole skills
  end.

End Executors.

(* ===================================================================== *)
(** * The world: session map, guestbook namespace, clock and randomness    *)
(* ===================================================================== *)

(** [sessionCache] is the module-level [Map]; a session object is reached
    through its key, so that a write through one reference is seen through
    every other.  [GUESTBOOK] is [env.GUESTBOOK] with the records the
    namespace holds, [None] when the binding is not configured; the records
    are kept parsed, the namespace having no other writer than
    [leaveMessage].  [clock] and [uuids] are what successive reads of [Date]
    and [crypto.randomUUID] return. *)
Record World : Type := {
  sessionCache : gmap string SessionState;
  GUESTBOOK : option (gmap string GuestbookEntry);
  clock : nat -> Z;
  ticks : nat;
  uuids : nat -> string;
  drawn : nat
}.

Definition with_sessionCache (c : gmap string SessionState) (w : World) : World :=
  {| sessionCache := c; GUESTBOOK := GUESTBOOK w; clock := clock w;
     ticks := ticks w; uuids := uuids w; drawn := drawn w |}.

Definition with_GUESTBOOK (g : option (gmap string GuestbookEntry)) (w : World) : World :=
  {| sessionCache := sessionCache w; GUESTBOOK := g; clock := clock w;
     ticks := ticks w; uuids := uuids w; drawn := drawn w |}.

(** [new Date()] and [Date.now()]: one read of the clock. *)
Definition Date_now (w : World) : Z * World :=
  (clock w (ticks w),
   {| sessionCache := sessionCache w; GUESTBOOK := GUESTBOOK w; clock := clock w;
      ticks := S (ticks w); uuids := uuids w; drawn := drawn w |}).

(** [crypto.randomUUID()] *)
Definition randomUUID (w : World) : string * World :=
  (uuids w (drawn w),
   {| sessionCache := sessionCache w; GUESTBOOK := GUESTBOOK w; clock := clock w;
      ticks := ticks w; uuids := uuids w; drawn := S (drawn w) |}).

(** Lines written with [console.log]. *)
Record Intent : Type := {
  intentId : string;
  goal : string;
  mode : string
}.

Inductive LogLine : Type :=
| LogGuestbookEntry (e : GuestbookEntry)
| LogAgentVisit (i : Intent) (timestamp : Z)
| LogInvalidToken (message : string).

(** The request, as far as the worker reads it. *)
Record ToolCallParams : Type := {
  call_name : option string;
  call_arguments : option Arguments
}.

Record JsonRpcRequest : Type := {
  rpc_id : RpcId;
  rpc_method : string;
  rpc_params : option ToolCallParams
}.

(** What [request.json()] gives: it throws on a body that is not JSON; a
    JSON-RPC request or a batch of them; or the object the guestbook form
    posts. *)
Inductive Body : Type :=
| BodyInvalid (message : string)
| BodyRpc (rpc : JsonRpcRequest)
| BodyBatch (rpcs : list JsonRpcRequest)
| BodyGuest (name message : option string).

Record Request : Type := {
  http_method : string;
  pathname : string;
  origin : string;
  CF_Connecting_IP : option string;
  User_Agent : option string;
  Agent_Token : option string;
  body : Body
}.

(** [hashIP]: the first eight bytes, in hexadecimal, of the SHA-256 digest
    of the salted address. *)
Definition hashIP (ip : string) : IpHash := Sha256Hex8 (ip +:+ "resume-mcp-salt").

(** [request.headers.get('CF-Connecting-IP') || 'unknown'] *)
Definition connecting_ip (request : Request) : string :=
  JS.or_else (CF_Connecting_IP request) "unknown".

Definition getSessionKey (request : Request) : string :=
  let ip := JS.or_else (CF_Connecting_IP request) "unknown" in
  let ua := JS.or_else (User_Agent request) "unknown" in
  ip +:+ ":" +:+ JS.slice0 50 ua.

(** [session.hasAccess], read through the reference [session]. *)
Definition session_hasAccess (session : string) (w : World) : bool :=
  match sessionCache w !! session with
  | Some s => hasAccess s
  | None => false
  end.

(** [session.hasAccess = true], written through the reference [session]. *)
Definition grant (s : SessionState) : SessionState :=
  {| hasAccess := true; agentToken := agentToken s |}.

Definition grant_access (session : string) (w : World) : World :=
  with_sessionCache (alter grant session (sessionCache w)) w.

(* ===================================================================== *)
(** * Guestbook                                                            *)
(* ===================================================================== *)

Record LeaveResult : Type := {
  success : bool;
  access_granted : bool;
  message : string
}.

(** [leaveMessage] suspended at [await hashIP(ip)]: the entry is built up to
    its timestamp, nothing is stored yet. *)
Record PendingMessage : Type := {
  pending_params : Arguments;
  pending_timestamp : Z;
  pending_ip : string
}.

(** The part of [leaveMessage] that runs before its first [await]. *)
Definition leaveMessage_start (params : Arguments) (ip : string) (w : World)
  : PendingMessage * World :=
  let '(now, w) := Date_now w in
  ({| pending_params := params; pending_timestamp := now; pending_ip := ip |}, w).

Definition entry_of (p : PendingMessage) : GuestbookEntry :=
  {| entry_name := arg_name (pending_params p);
     entry_message := arg_message (pending_params p);
     entry_agent_id := arg_agent_id (pending_params p);
     entry_contact := arg_contact (pending_params p);
     entry_timestamp := pending_timestamp p;
     entry_ip_hash := Some (hashIP (pending_ip p)) |}.

(** [`entry:${Date.now()}:${crypto.randomUUID()}`] *)
Definition entry_key (now : Z) (uuid : string) : string :=
  "entry:" +:+ pretty now +:+ ":" +:+ uuid.

(** What [leaveMessage] returns. *)
Definition thanks (name : option string) : LeaveResult :=
  {| success := true;
     access_granted := true;
     message := "Thanks, " +:+ JS.template name
                +:+ "! You now have access to all profile information." |}.

(** The rest of [leaveMessage], run when the digest is there. *)
Definition leaveMessage_resume (p : PendingMessage) (w : World)
  : LeaveResult * list LogLine * World :=
  let entry := entry_of p in
  let w :=
    match GUESTBOOK w with
    | Some kv =>
        let '(now, w) := Date_now w in
        let '(uuid, w) := randomUUID w in
        with_GUESTBOOK (Some (<[entry_key now uuid := entry]> kv)) w
    | None => w
    end in
  (thanks (arg_name (pending_params p)), [LogGuestbookEntry entry], w).

(** [await leaveMessage(params, env, ip)] *)
Definition leaveMessage (params : Arguments) (ip : string) (w : World)
  : LeaveResult * list LogLine * World :=
  let '(p, w) := leaveMessage_start params ip w in
  leaveMessage_resume p w.

(** [GUESTBOOK.list({ prefix })]: the keys with the prefix, in the
    lexicographic order the namespace lists them in. *)
Definition key_order (a b : string) : Z :=
  match String.compare a b with
  | Lt => (-1)%Z
  | Eq => 0%Z
  | Gt => 1%Z
  end.

Definition kv_list (prefix : string) (kv : gmap string GuestbookEntry) : list string :=
  JS.sort key_order (List.filter (String.prefix prefix) (map fst (map_to_list kv))).

(** [const { ip_hash, ...publicEntry } = entry] *)
Definition publicEntry (e : GuestbookEntry) : GuestbookEntry :=
  {| entry_name := entry_name e;
     entry_message := entry_message e;
     entry_agent_id := entry_agent_id e;
     entry_contact := entry_contact e;
     entry_timestamp := entry_timestamp e;
     entry_ip_hash := None |}.

(** The loop over [list.keys]: a key whose value is gone is skipped. *)
Fixpoint read_entries (kv : gmap string GuestbookEntry) (keys : list string)
  : list GuestbookEntry :=
  match keys with
  | [] => []
  | key :: rest =>
      match kv !! key with
      | Some entry => publicEntry entry :: read_entries kv rest
      | None => read_entries kv rest
      end
  end.

(** [(a, b) => new Date(b.timestamp).getTime() - new Date(a.timestamp).getTime()] *)
Definition newest_first (a b : GuestbookEntry) : Z :=
  (entry_timestamp b - entry_timestamp a)%Z.

Definition guestbook_entries (kv : gmap string GuestbookEntry) : list GuestbookEntry :=
  JS.sort newest_first (read_entries kv (kv_list "entry:" kv)).

(* ===================================================================== *)
(** * Dispatcher                                                           *)
(* ===================================================================== *)

(** [error.data] of the access denial. *)
Record DenialData : Type := {
  hint : string;
  gated_tool : string;
  free_tools : list string
}.

Record ToolError : Type := {
  error_code : Z;
  error_message : string;
  error_data : option DenialData
}.

Inductive ToolValue : Type :=
| ProfileValue (p : Profile)
| ProjectsValue (l : list Project)
| WritingValue (l : list Article)
| ExperienceValue (l : list Position)
| SkillsValue (o : JS.object (JS.member (list string)))
| LeaveValue (r : LeaveResult).

(** What [handleToolCall] resolves to: [{ result }] or [{ error }]. *)
Inductive ToolReturn : Type :=
| Result (v : ToolValue)
| Error (e : ToolError).

(** An [async] function after its synchronous part: already settled with a
    value, or suspended on the [await] inside [leaveMessage]. *)
Inductive Started (A P : Type) : Type :=
| Settled (a : A)
| Suspended (p : P).
Arguments Settled {A P} a.
Arguments Suspended {A P} p.

(** The argument of [JSON.stringify] in the text of a tool response. *)
Inductive Payload : Type :=
| ValuePayload (v : ToolValue)
| DataPayload (d : DenialData)
| MessagePayload (message : string).

Inductive RpcResult : Type :=
| InitializeResult (protocolVersion serverName serverVersion : string)
| EmptyResult
| ToolsListResult (tools : list Tool)
| ToolCallResult (text : Payload) (isError : bool).

Record RpcError : Type := {
  code : Z;
  rpc_message : string;
  data : option string
}.

(** [interface JsonRpcResponse] *)
Record JsonRpcResponse : Type := {
  id : RpcId;
  result : option RpcResult;
  error : option RpcError
}.

Section Dispatcher.

Variable profileData : ProfileData.

Definition denial (tool : string) : DenialData :=
  {| hint := "Call leave_message() first to introduce yourself, or include an Agent-Token header.";
     gated_tool := tool;
     free_tools := FREE_TOOLS |}.

Definition access_required (tool : string) : ToolError :=
  {| error_code := -32001;
     error_message := "Access required";
     error_data := Some (denial tool) |}.

Definition unknown_tool (tool : option string) : ToolError :=
  {| error_code := -32601;
     error_message := "Unknown tool: " +:+ JS.template tool;
     error_data := None |}.

(** [GATED_TOOLS.includes(tool)], [tool] possibly undefined. *)
Definition gated (tool : option string) : bool :=
  match tool with
  | Some t => Gated t
  | None => false
  end.

(** The [switch] of [handleToolCall], up to the first [await]; an undefined
    [tool] matches no [case]. *)
Definition execute_start (tool : option string) (params : Arguments)
    (request : Request) (w : World)
  : Started ToolReturn PendingMessage * World :=
  match tool with
  | None => (Settled (Error (unknown_tool tool)), w)
  | Some t =>
      if String.eqb t "get_profile" then
        (Settled (Result (ProfileValue (getProfile profileData))), w)
      else if String.eqb t "get_projects" then
        (Settled (Result (ProjectsValue (getProjects profileData params))), w)
      else if String.eqb t "get_writing" then
        (Settled (Result (WritingValue (getWriting profileData params))), w)
      else if String.eqb t "get_experience" then
        (Settled (Result (ExperienceValue (getExperience profileData params))), w)
      else if String.eqb t "get_skills" then
        (Settled (Result (SkillsValue (getSkills profileData params))), w)
      else if String.eqb t "leave_message" then
        let ip := JS.or_else (CF_Connecting_IP request) "unknown" in
        let '(p, w) := leaveMessage_start params ip w in
        (Suspended p, w)
      else (Settled (Error (unknown_tool tool)), w)
  end.

(** [handleToolCall], up to its first [await]. *)
Definition handleToolCall_start (tool : option string) (params : Arguments)
    (session : string) (request : Request) (w : World)
  : Started ToolReturn PendingMessage * World :=
  if gated tool && negb (session_hasAccess session w)
  then (Settled (Error (access_required (JS.template tool))), w)
  else execute_start tool params request w.

(** [handleToolCall], from the [await] of [leaveMessage] on. *)
Definition handleToolCall_resume (p : PendingMessage) (session : string) (w : World)
  : ToolReturn * list LogLine * World :=
  let '(r, logs, w) := leaveMessage_resume p w in
  (Result (LeaveValue r), logs, grant_access session w).

(** [await handleToolCall(tool, params, session, env, request)] *)
Definition handleToolCall (tool : option string) (params : Arguments)
    (session : string) (request : Request) (w : World)
  : ToolReturn * list LogLine * World :=
  match handleToolCall_start tool params session request w with
  | (Settled r, w) => (r, [], w)
  | (Suspended p, w) => handleToolCall_resume p session w
  end.

Definition ok (i : RpcId) (r : RpcResult) : JsonRpcResponse :=
  {| id := i; result := Some r; error := None |}.

(** The response of [tools/call] to what [handleToolCall] resolved to. *)
Definition tool_response (i : RpcId) (toolResult : ToolReturn) : JsonRpcResponse :=
  match toolResult with
  | Error e =>
      ok i (ToolCallResult
              (match error_data e with
               | Some d => DataPayload d
               | None => MessagePayload (error_message e)
               end)
              true)
  | Result v => ok i (ToolCallResult (ValuePayload v) false)
  end.

Definition method_not_found (i : RpcId) (method : string) : JsonRpcResponse :=
  {| id := i; result := None;
     error := Some {| code := -32601;
                      rpc_message := "Method not found: " +:+ method;
                      data := None |} |}.

(** [handleJsonRpc], up to its first suspension.  Reading [name] of
    undefined [params] throws. *)
Definition handleJsonRpc_start (rpc : JsonRpcRequest) (session : string)
    (request : Request) (w : World)
  : JS.completion (Started JsonRpcResponse (RpcId * PendingMessage)) * World :=
  let i := rpc_id rpc in
  let method := rpc_method rpc in
  if String.eqb method "initialize" then
    (JS.Normal (Settled (ok i (InitializeResult "2024-11-05" "resume-mcp" "1.0.0"))), w)
  else if String.eqb method "notifications/initialized" then
    (JS.Normal (Settled (ok i EmptyResult)), w)
  else if String.eqb method "tools/list" then
    (JS.Normal (Settled (ok i (ToolsListResult TOOLS))), w)
  else if String.eqb method "tools/call" then
    match rpc_params rpc with
    | None => (JS.Throw "Cannot read properties of undefined (reading 'name')", w)
    | Some toolParams =>
        let arguments :=
          match call_arguments toolParams with
          | Some a => a
          | None => no_arguments
          end in
        match handleToolCall_start (call_name toolParams) arguments session request w with
        | (Settled r, w) => (JS.Normal (Settled (tool_response i r)), w)
        | (Suspended p, w) => (JS.Normal (Suspended (i, p)), w)
        end
    end
  else if String.eqb method "ping" then
    (JS.Normal (Settled (ok i EmptyResult)), w)
  else (JS.Normal (Settled (method_not_found i method)), w).

Definition handleJsonRpc_resume (s : Started JsonRpcResponse (RpcId * PendingMessage))
    (session : string) (w : World)
  : JsonRpcResponse * list LogLine * World :=
  match s with
  | Settled r => (r, [], w)
  | Suspended (i, p) =>
      let '(r, logs, w) := handleToolCall_resume p session w in
      (tool_response i r, logs, w)
  end.

(** [await handleJsonRpc(rpc, session, env, request)] *)
Definition handleJsonRpc (rpc : JsonRpcRequest) (session : string)
    (request : Request) (w : World)
  : JS.completion JsonRpcResponse * list LogLine * World :=
  match handleJsonRpc_start rpc session request w with
  | (JS.Normal s, w) =>
      let '(r, logs, w) := handleJsonRpc_resume s session w in
      (JS.Normal r, logs, w)
  | (JS.Throw m, w) => (JS.Throw m, [], w)
  end.

(** [body.map(rpc => handleJsonRpc(rpc, session, env, request))]: every call
    runs its synchronous part, in the order of the batch, before any of
    them is resumed. *)
Fixpoint start_batch (rpcs : list JsonRpcRequest) (session : string)
    (request : Request) (w : World)
  : list (JS.completion (Started JsonRpcResponse (RpcId * PendingMessage))) * World :=
  match rpcs with
  | [] => ([], w)
  | rpc :: rest =>
      let '(c, w) := handleJsonRpc_start rpc session request w in
      let '(cs, w) := start_batch rest session request w in
      (c :: cs, w)
  end.

(** [Promise.all] over promises none of which is settled later than it
    was created rejected: the first rejected one decides. *)
Fixpoint all_started {A : Type} (cs : list (JS.completion A)) : JS.completion (list A) :=
  match cs with
  | [] => JS.Normal []
  | JS.Throw m :: _ => JS.Throw m
  | JS.Normal a :: rest =>
      match all_started rest with
      | JS.Normal l => JS.Normal (a :: l)
      | JS.Throw m => JS.Throw m
      end
  end.

(** The suspended calls of a batch are resumed in the order of the batch;
    the responses keep that order. *)
Fixpoint finish_batch (l : list (Started JsonRpcResponse (RpcId * PendingMessage)))
    (session : string) (w : World)
  : list JsonRpcResponse * list LogLine * World :=
  match l with
  | [] => ([], [], w)
  | s :: rest =>
      let '(r, logs, w) := handleJsonRpc_resume s session w in
      let '(rs, logs', w) := finish_batch rest session w in
      (r :: rs, (logs ++ logs')%list, w)
  end.

End Dispatcher.

(* ===================================================================== *)
(** * The request handler                                                  *)
(* ===================================================================== *)

Record Discovery : Type := {
  endpoint : string;
  protocol : string;
  discovery_protocolVersion : string;
  discovery_tools : list string;
  access_free : list string;
  access_gated : list string;
  access_toll : string;
  agent_tokens : string
}.

Inductive ResponseBody : Type :=
| Preflight
| DiscoveryDocument (d : Discovery)
| Health
| GuestbookListing (entries : list GuestbookEntry) (failure : option string)
| GuestbookPosted (r : LeaveResult)
| GuestbookRefused (failure : string)
| RpcResponse (r : JsonRpcResponse)
| RpcResponses (rs : list JsonRpcResponse)
| InfoPage.

Record Response : Type := {
  status : Z;
  response_body : ResponseBody
}.

Definition respond (b : ResponseBody) : Response :=
  {| status := 200; response_body := b |}.

Definition parse_error (message : string) : Response :=
  {| status := 400;
     response_body :=
       RpcResponse {| id := IdNull; result := None;
                      error := Some {| code := -32700;
                                       rpc_message := "Parse error";
                                       data := Some message |} |} |}.

Section Worker.

Variable profileData : ProfileData.

(** [decodeAgentTokenV0] and [getIntentV1] of [@agent-tokens/core]: either
    may throw, and the second may find no intent. *)
Variable DecodedToken : Type.
Variable decodeAgentTokenV0 : string -> JS.completion DecodedToken.
Variable getIntentV1 : DecodedToken -> JS.completion (option Intent).

(** [GET /api/guestbook] *)
Definition guestbook_get (w : World) : Response :=
  match GUESTBOOK w with
  | None => respond (GuestbookListing [] (Some "Guestbook not configured"))
  | Some kv => respond (GuestbookListing (guestbook_entries kv) None)
  end.

(** [POST /api/guestbook] *)
Definition guestbook_post (request : Request) (w : World)
  : Response * list LogLine * World :=
  let refuse := fun m =>
    ({| status := 400; response_body := GuestbookRefused m |}, [], w) in
  match body request with
  | BodyInvalid _ => refuse "Invalid request"
  | BodyGuest name message =>
      if negb (JS.truthy_opt name) || negb (JS.truthy_opt message)
      then refuse "Name and message are required"
      else
        let ip := JS.or_else (CF_Connecting_IP request) "unknown" in
        let params :=
          {| arg_tag := None; arg_featured_only := None; arg_platform := None;
             arg_limit := None; arg_current_only := None; arg_category := None;
             arg_name := name; arg_message := message; arg_agent_id := None;
             arg_contact := None |} in
        let '(r, logs, w) := leaveMessage params ip w in
        (respond (GuestbookPosted r), logs, w)
  | BodyRpc _ | BodyBatch _ => refuse "Name and message are required"
  end.

(** Get or create the session of the caller. *)
Definition get_or_create (sessionKey : string) (w : World) : World :=
  match sessionCache w !! sessionKey with
  | Some _ => w
  | None =>
      with_sessionCache
        (<[sessionKey := {| hasAccess := false; agentToken := None |}]> (sessionCache w)) w
  end.

(** [session.hasAccess = true; session.agentToken = agentToken] *)
Definition grant_token (agentToken : string) (session : string) (w : World) : World :=
  with_sessionCache
    (alter (fun _ => {| hasAccess := true; agentToken := Some agentToken |})
           session (sessionCache w)) w.

(** The [Agent-Token] header: a token that decodes to an intent grants
    access; whatever is thrown is caught and logged. *)
Definition check_agent_token (request : Request) (session : string) (w : World)
  : list LogLine * World :=
  match Agent_Token request with
  | Some agentToken =>
      if JS.truthy agentToken then
        match decodeAgentTokenV0 agentToken with
        | JS.Normal decoded =>
            match getIntentV1 decoded with
            | JS.Normal (Some intent) =>
                let w := grant_token agentToken session w in
                let '(now, w) := Date_now w in
                ([LogAgentVisit intent now], w)
            | JS.Normal None => ([], w)
            | JS.Throw m => ([LogInvalidToken m], w)
            end
        | JS.Throw m => ([LogInvalidToken m], w)
        end
      else ([], w)
  | None => ([], w)
  end.

(** The JSON-RPC part of the MCP endpoint, once the session is there and
    the token looked at.  When a call of a batch throws, the handler
    answers with the parse error at once; the calls of the batch that are
    still suspended then are not followed further. *)
Definition mcp_body (request : Request) (session : string) (w : World)
  : Response * list LogLine * World :=
  match body request with
  | BodyInvalid m => (parse_error m, [], w)
  | BodyBatch rpcs =>
      let '(cs, w) := start_batch profileData rpcs session request w in
      match all_started cs with
      | JS.Normal l =>
          let '(responses, logs, w) := finish_batch l session w in
          (respond (RpcResponses responses), logs, w)
      | JS.Throw m => (parse_error m, [], w)
      end
  | BodyRpc rpc =>
      match handleJsonRpc profileData rpc session request w with
      | (JS.Normal response, logs, w) => (respond (RpcResponse response), logs, w)
      | (JS.Throw m, logs, w) => (parse_error m, logs, w)
      end
  | BodyGuest _ _ =>
      (respond (RpcResponse (method_not_found IdMissing "undefined")), [], w)
  end.

(** [POST] to any other path: the MCP endpoint. *)
Definition mcp_post (request : Request) (w : World)
  : Response * list LogLine * World :=
  let sessionKey := getSessionKey request in
  let w := get_or_create sessionKey w in
  let '(logs, w) := check_agent_token request sessionKey w in
  let '(response, logs', w) := mcp_body request sessionKey w in
  (response, (logs ++ logs')%list, w).

Definition discovery (request : Request) : Discovery :=
  {| endpoint := origin request;
     protocol := "mcp";
     discovery_protocolVersion := "2024-11-05";
     discovery_tools := map name TOOLS;
     access_free := FREE_TOOLS;
     access_gated := GATED_TOOLS;
     access_toll := "leave_message() or Agent-Token header";
     agent_tokens := "https://github.com/brysontang/agent-tokens" |}.

Definition fetch (request : Request) (w : World) : Response * list LogLine * World :=
  if String.eqb (http_method request) "OPTIONS" then
    (respond Preflight, [], w)
  else if String.eqb (pathname request) "/.well-known/mcp.json"
          || String.eqb (pathname request) "/mcp.json" then
    (respond (DiscoveryDocument (discovery request)), [], w)
  else if String.eqb (pathname request) "/health" then
    (respond Health, [], w)
  else if String.eqb (pathname request) "/api/guestbook"
          && String.eqb (http_method request) "GET" then
    (guestbook_get w, [], w)
  else if String.eqb (pathname request) "/api/guestbook"
          && String.eqb (http_method request) "POST" then
    guestbook_post request w
  else if String.eqb (http_method request) "POST" then
    mcp_post request w
  else (respond InfoPage, [], w).

(** A sequence of requests served one after the other. *)
Fixpoint serve (requests : list Request) (w : World) : World :=
  match requests with
  | [] => w
  | request :: rest => serve rest (snd (fetch request w))
  end.

(** What the callers and the console see of a sequence of requests. *)
Fixpoint observe (requests : list Request) (w : World) : list (Response * list LogLine) :=
  match requests with
  | [] => []
  | request :: rest =>
      let '(response, logs, w) := fetch request w in
      (response, logs) :: observe rest w
  end.

End Worker.

(* ===================================================================== *)
(** * Notions used in the statements                                       *)
(* ===================================================================== *)

(** The request [{ id, method: "tools/call", params: { name, arguments } }]. *)
Definition call (i : RpcId) (tool : string) (a : option Arguments) : JsonRpcRequest :=
  {| rpc_id := i;
     rpc_method := "tools/call";
     rpc_params := Some {| call_name := Some tool; call_arguments := a |} |}.

Definition tool_call (i : Z) (tool : string) (a : option Arguments) : JsonRpcRequest :=
  call (IdNumber i) tool a.

(** Argument objects with a single field, or with the two fields
    [leave_message] requires. *)
Definition tag_argument (x : string) : Arguments :=
  {| arg_tag := Some x; arg_featured_only := None; arg_platform := None;
     arg_limit := None; arg_current_only := None; arg_category := None;
     arg_name := None; arg_message := None; arg_agent_id := None;
     arg_contact := None |}.

Definition limit_argument (n : Z) : Arguments :=
  {| arg_tag := None; arg_featured_only := None; arg_platform := None;
     arg_limit := Some n; arg_current_only := None; arg_category := None;
     arg_name := None; arg_message := None; arg_agent_id := None;
     arg_contact := None |}.

Definition category_argument (c : string) : Arguments :=
  {| arg_tag := None; arg_featured_only := None; arg_platform := None;
     arg_limit := None; arg_current_only := None; arg_category := Some c;
     arg_name := None; arg_message := None; arg_agent_id := None;
     arg_contact := None |}.

Definition message_arguments (name message : string) : Arguments :=
  {| arg_tag := None; arg_featured_only := None; arg_platform := None;
     arg_limit := None; arg_current_only := None; arg_category := None;
     arg_name := Some name; arg_message := Some message; arg_agent_id := None;
     arg_contact := None |}.

(** The entry [leaveMessage] builds from its arguments, the time and the
    address of the caller. *)
Definition entry_for (a : Arguments) (timestamp : Z) (ip : string) : GuestbookEntry :=
  entry_of {| pending_params := a; pending_timestamp := timestamp; pending_ip := ip |}.


(** The number of records the guestbook namespace holds. *)
Definition stored (w : World) : nat :=
  match GUESTBOOK w with
  | Some kv => size kv
  | None => 0
  end.

(** The response a started call ends with: the one it settled with, or the
    thanks [leave_message] resolves to once resumed. *)
Definition settled_response (s : Started JsonRpcResponse (RpcId * PendingMessage))
  : JsonRpcResponse :=
  match s with
  | Settled r => r
  | Suspended (i, p) =>
      ok i (ToolCallResult
              (ValuePayload (LeaveValue (thanks (arg_name (pending_params p))))) false)
  end.

Definition answer (c : JS.completion (Started JsonRpcResponse (RpcId * PendingMessage)))
  : JS.completion JsonRpcResponse :=
  match c with
  | JS.Normal s => JS.Normal (settled_response s)
  | JS.Throw m => JS.Throw m
  end.

(** The response a request gets when it is handled alone. *)
Definition alone (profileData : ProfileData) (session : string) (request : Request)
    (w : World) (rpc : JsonRpcRequest) : JS.completion JsonRpcResponse :=
  fst (fst (handleJsonRpc profileData rpc session request w)).

(** A request that reads its [params] has some. *)
Definition has_params (rpc : JsonRpcRequest) : Prop :=
  rpc_method rpc = "tools/call" -> is_Some (rpc_params rpc).

(** No session that has access in [w] is without it in [w']. *)
Definition access_kept (w w' : World) : Prop :=
  forall session, session_hasAccess session w = true -> session_hasAccess session w' = true.

(** Two worlds that differ at most in the tokens their sessions remember. *)
Definition alike (w w' : World) : Prop :=
  hasAccess <$> sessionCache w = hasAccess <$> sessionCache w'
  /\ GUESTBOOK w = GUESTBOOK w'
  /\ clock w = clock w'
  /\ ticks w = ticks w'
  /\ uuids w = uuids w'
  /\ drawn w = drawn w'.

(** The same request with no [Agent-Token] header. *)
Definition without_token (request : Request) : Request :=
  {| http_method := http_method request;
     pathname := pathname request;
     origin := origin request;
     CF_Connecting_IP := CF_Connecting_IP request;
     User_Agent := User_Agent request;
     Agent_Token := None;
     body := body request |}.

(** Containment of a tag [x] in a tag list compared without regard to
    case, as the specification words the tag filter. *)
Definition tagged_ci (ts : list string) (x : string) : bool :=
  existsb (fun t => String.eqb (JS.toLowerCase t) (JS.toLowerCase x)) ts.

(* ===================================================================== *)
(** * A small deployment, for evaluating the handler                       *)
(* ===================================================================== *)

Definition example_profile : ProfileData :=
  {| profile :=
       {| profile_name := "Ada Lovelace";
          profile_tagline := "Analyst";
          profile_links := [("github", "https://github.com/ada")];
          profile_contact := [("email", "ada@example.dev")] |};
     projects :=
       [ {| project_name := "engine"; tags := ["ai"; "math"]; featured := true |};
         {| project_name := "notes"; tags := ["writing"]; featured := false |};
         {| project_name := "loom"; tags := ["AI"]; featured := false |} ];
     writing :=
       [ {| article_title := "first"; platform := "blog" |};
         {| article_title := "second"; platform := "dev.to" |};
         {| article_title := "third"; platform := "blog" |} ];
     experience :=
       [ {| position_title := "engineer"; current := true |};
         {| position_title := "intern"; current := false |} ];
     skills :=
       [ ("languages", ["TypeScript"; "Rust"]);
         ("frameworks", ["React"]);
         ("infrastructure", ["Cloudflare"]);
         ("domains", ["compilers"]) ] |}.

Definition example_world (g : option (gmap string GuestbookEntry)) : World :=
  {| sessionCache := ∅;
     GUESTBOOK := g;
     clock := fun n => (Z.of_nat n + 1700000000000)%Z;
     ticks := 0;
     uuids := fun n =>
       List.nth n [ "3b241101-e2bb-4255-8caf-4136c566a962";
                    "9f1c7d52-0a46-4b0e-9a2e-6d0f8e1b7c33" ]
                  "c0ffee00-0000-4000-8000-000000000000";
     drawn := 0 |}.

Definition example_request (token : option string) (b : Body) : Request :=
  {| http_method := "POST";
     pathname := "/";
     origin := "https://mcp.example.dev";
     CF_Connecting_IP := Some "203.0.113.7";
     User_Agent := Some "agent/1.0";
     Agent_Token := token;
     body := b |}.

(** The key of the caller of [example_request]. *)
Definition example_key : string := "203.0.113.7:agent/1.0".

Definition listing_request : Request :=
  {| http_method := "GET";
     pathname := "/api/guestbook";
     origin := "https://mcp.example.dev";
     CF_Connecting_IP := Some "203.0.113.7";
     User_Agent := Some "browser";
     Agent_Token := None;
     body := BodyInvalid "Unexpected end of JSON input" |}.

Definition example_guestbook : gmap string GuestbookEntry :=
  <[ "entry:1700000000500:9f1c7d52-0a46-4b0e-9a2e-6d0f8e1b7c33" :=
       entry_for (message_arguments "Grace" "hello") 1700000000499 "198.51.100.4" ]>
  (<[ "entry:1700000000100:3b241101-e2bb-4255-8caf-4136c566a962" :=
       entry_for (message_arguments "Ada" "hi") 1700000000099 "203.0.113.7" ]> ∅).

(** A stand-in for the token library: a token is its own decoding when it
    starts with [at0.], and every decoded token declares one intent. *)
Definition example_decode (token : string) : JS.completion string :=
  if String.prefix "at0." token then JS.Normal token else JS.Throw "Invalid token format".

Definition example_intent (decoded : string) : JS.completion (option Intent) :=
  JS.Normal (Some {| intentId := "recruiting-scan"; goal := decoded; mode := "read-only" |}).

(** A world in which the caller of [example_request] is known and has no
    access yet. *)
Definition visited_world (g : option (gmap string GuestbookEntry)) : World :=
  get_or_create example_key (example_world g).

(* ===================================================================== *)
(** * Further notions: headers, digest, routes                             *)
(* ===================================================================== *)


(** [toolParams.arguments || {}] *)
Definition arguments_or_empty (a : option Arguments) : Arguments :=
  match a with
  | Some a => a
  | None => no_arguments
  end.

(** The methods [handleJsonRpc] has a [case] for. *)
Definition known_methods : list string :=
  ["initialize"; "notifications/initialized"; "tools/list"; "tools/call"; "ping"].

(** The paths [fetch] answers before it looks at a [POST] as JSON-RPC. *)
Definition reserved_paths : list string :=
  ["/.well-known/mcp.json"; "/mcp.json"; "/health"; "/api/guestbook"].

(** A request that reaches the MCP endpoint. *)
Definition mcp_request (request : Request) : Prop :=
  http_method request = "POST" /\ ~ In (pathname request) reserved_paths.

(** [corsHeaders]: the four headers, in the order they are set. *)
Definition corsHeaders (origin : option string) : list (string * string) :=
  [ ("Access-Control-Allow-Origin", JS.or_else origin "*");
    ("Access-Control-Allow-Methods", "GET, POST, OPTIONS");
    ("Access-Control-Allow-Headers", "Content-Type, Agent-Token");
    ("Access-Control-Max-Age", "86400") ].

(** [env.CORS_ORIGIN || request.headers.get('Origin') || '*'] *)
Definition allowed_origin (CORS_ORIGIN Origin : option string) : string :=
  JS.or_else CORS_ORIGIN (JS.or_else Origin "*").

(** The value [headers.get(name)] gives after the [set]s listed, the last
    [set] of a name being the one that counts. *)
Fixpoint header (name : string) (headers : list (string * string)) : option string :=
  match headers with
  | [] => None
  | (n, v) :: rest =>
      match header name rest with
      | Some v' => Some v'
      | None => if String.eqb n name then Some v else None
      end
  end.

(** [b.toString(16).padStart(2, '0')] for a byte [b]. *)
Definition hex_digit (n : N) : ascii :=
  match n with
  | 0 => "0" | 1 => "1" | 2 => "2" | 3 => "3" | 4 => "4" | 5 => "5" | 6 => "6"
  | 7 => "7" | 8 => "8" | 9 => "9" | 10 => "a" | 11 => "b" | 12 => "c"
  | 13 => "d" | 14 => "e" | _ => "f"
  end%N%char.

Definition hex_byte (b : N) : string :=
  String (hex_digit (b / 16)) (String (hex_digit (b mod 16)) EmptyString).

(** [hashArray.slice(0, 8).map(...).join('')], for the bytes of the digest. *)
Definition digest_hex (hashArray : list N) : string :=
  String.concat "" (map hex_byte (firstn 8 hashArray)).

(** The world moves on: no session and no guestbook record is removed, the
    binding of the namespace stays, the oracles are the same and are only
    read forward. *)
Definition moves_on (w w' : World) : Prop :=
  (forall k, is_Some (sessionCache w !! k) -> is_Some (sessionCache w' !! k))
  /\ match GUESTBOOK w, GUESTBOOK w' with
     | Some kv, Some kv' => forall k, is_Some (kv !! k) -> is_Some (kv' !! k)
     | None, None => True
     | _, _ => False
     end
  /\ clock w' = clock w
  /\ uuids w' = uuids w
  /\ ticks w <= ticks w'
  /\ drawn w <= drawn w'.

(** ... and every session but [session] is what it was. *)
Definition touches_only (session : string) (w w' : World) : Prop :=
  forall k, k <> session -> sessionCache w' !! k = sessionCache w !! k.

(** The two together. *)
Definition evolves (session : string) (w w' : World) : Prop :=
  moves_on w w' /\ touches_only session w w'.

(** The handler of the example deployment. *)
Definition example_fetch (request : Request) (w : World)
  : Response * list LogLine * World :=
  fetch example_profile string example_decode example_intent request w.

Definition example_serve (requests : list Request) (w : World) : World :=
  serve example_profile string example_decode example_intent requests w.

(** Two user agents that agree on their first fifty characters. *)
Definition agent_alpha : string :=
  "Mozilla/5.0 (compatible; research-agent/2.1; +http-alpha".

Definition agent_beta : string :=
  "Mozilla/5.0 (compatible; research-agent/2.1; +http-beta/9".

(** A request of the example caller with a user agent and a token. *)
Definition request_as (agent : string) (token : option string) (b : Body) : Request :=
  {| http_method := "POST";
     pathname := "/";
     origin := "https://mcp.example.dev";
     CF_Connecting_IP := Some "203.0.113.7";
     User_Agent := Some agent;
     Agent_Token := token;
     body := b |}.

(** The form of the guestbook, posted by the example caller. *)
Definition form_request (name message : option string) : Request :=
  {| http_method := "POST";
     pathname := "/api/guestbook";
     origin := "https://mcp.example.dev";
     CF_Connecting_IP := Some "203.0.113.7";
     User_Agent := Some "browser";
     Agent_Token := None;
     body := BodyGuest name message |}.

(* ===================================================================== *)
(** * Properties                                                           *)
(* ===================================================================== *)

(** C5. Every tool name of the catalog is in exactly one of the Free and the
    Gated lists, the two lists together hold exactly the names of the
    catalog, and the catalog has six entries. *)
Theorem tiers_partition_catalog :
  Forall (fun t => xorb (Free t) (Gated t) = true) tool_names
  /\ (forall t : string, In t (FREE_TOOLS ++ GATED_TOOLS) <-> In t tool_names)
  /\ length TOOLS = 6%nat.
Proof.
  split; [| split].
  - unfold tool_names; cbn. repeat constructor.
  - intros t; unfold tool_names; cbn. intuition.
  - reflexivity.
Qed.


(* --------------------------------------------------------------------- *)
(** ** Access gate                                                         *)
(* --------------------------------------------------------------------- *)

Lemma gated_tool_is_gated (tool : string) :
  In tool GATED_TOOLS -> gated (Some tool) = true.
Proof.
  intros [<- | [<- | []]]; reflexivity.
Qed.

(** C1. A [tools/call] of a gated tool from a session whose [hasAccess] is
    false resolves to a response with a [result] and no [error]; the result
    is marked [isError] and its text is the denial data: the hint, the tool
    asked for and the list of free tools.  [handleToolCall] settles with
    the access error before its [switch], so no executor has run; nothing
    is logged and the world (sessions, guestbook) is the one before. *)
Theorem gated_call_denied (profileData : ProfileData) (rpc : JsonRpcRequest)
    (toolParams : ToolCallParams) (tool session : string) (request : Request)
    (w : World) :
  rpc_method rpc = "tools/call" ->
  rpc_params rpc = Some toolParams ->
  call_name toolParams = Some tool ->
  In tool GATED_TOOLS ->
  session_hasAccess session w = false ->
  handleJsonRpc profileData rpc session request w =
    (JS.Normal
       {| id := rpc_id rpc;
          result :=
            Some (ToolCallResult
                    (DataPayload
                       {| hint := "Call leave_message() first to introduce yourself, or include an Agent-Token header.";
                          gated_tool := tool;
                          free_tools := FREE_TOOLS |})
                    true);
          error := None |},
     [], w)
  /\ (forall params,
        handleToolCall_start profileData (Some tool) params session request w =
          (Settled (Error (access_required tool)), w)).
Proof.
  intros Hmethod Hparams Hname Hin Haccess.
  assert (Hstart : forall params,
             handleToolCall_start profileData (Some tool) params session request w =
               (Settled (Error (access_required tool)), w)).
  { intros params. unfold handleToolCall_start.
    rewrite (gated_tool_is_gated tool Hin), Haccess. reflexivity. }
  split; [| exact Hstart].
  unfold handleJsonRpc, handleJsonRpc_start.
  rewrite Hmethod, Hparams, Hname. cbn [String.eqb Ascii.eqb Bool.eqb].
  rewrite Hstart. reflexivity.
Qed.

(** The denial, for a first call of [get_experience] by the example caller. *)
Lemma gated_call_denied_example :
  handleJsonRpc example_profile (tool_call 1 "get_experience" None) example_key
      (example_request None (BodyRpc (tool_call 1 "get_experience" None)))
      (visited_world None) =
    (JS.Normal
       {| id := IdNumber 1;
          result :=
            Some (ToolCallResult
                    (DataPayload
                       {| hint := "Call leave_message() first to introduce yourself, or include an Agent-Token header.";
                          gated_tool := "get_experience";
                          free_tools := FREE_TOOLS |})
                    true);
          error := None |},
     [], visited_world None)
  /\ (forall params,
        handleToolCall_start example_profile (Some "get_experience") params example_key
            (example_request None (BodyRpc (tool_call 1 "get_experience" None)))
            (visited_world None) =
          (Settled (Error (access_required "get_experience")), visited_world None)).
Proof.
  apply (gated_call_denied example_profile (tool_call 1 "get_experience" None)
           {| call_name := Some "get_experience"; call_arguments := None |}
           "get_experience" example_key);
    [reflexivity | reflexivity | reflexivity | simpl; auto | reflexivity].
Defined.

(** A fresh caller is denied the experience, introduces itself, and is
    then given the experience. *)
Example introduction_opens_gated_tool :
  map fst
      (observe example_profile string example_decode example_intent
         [ example_request None (BodyRpc (tool_call 1 "get_experience" None));
           example_request None
             (BodyRpc (tool_call 2 "leave_message" (Some (message_arguments "Ada" "hi"))));
           example_request None (BodyRpc (tool_call 3 "get_experience" None)) ]
         (example_world None)) =
    [ respond (RpcResponse
                 (ok (IdNumber 1)
                     (ToolCallResult (DataPayload (denial "get_experience")) true)));
      respond (RpcResponse
                 (ok (IdNumber 2)
                     (ToolCallResult (ValuePayload (LeaveValue (thanks (Some "Ada")))) false)));
      respond (RpcResponse
                 (ok (IdNumber 3)
                     (ToolCallResult
                        (ValuePayload (ExperienceValue (experience example_profile)))
                        false))) ].
Proof. vm_compute. reflexivity. Qed.

(* --------------------------------------------------------------------- *)
(** ** Required parameters                                                 *)
(* --------------------------------------------------------------------- *)

(** The guestbook form refuses a submission without a name or a message,
    and stores nothing. *)
Lemma guestbook_post_requires_name_and_message (request : Request)
    (name message : option string) (w : World) :
  body request = BodyGuest name message ->
  JS.truthy_opt name = false \/ JS.truthy_opt message = false ->
  guestbook_post request w =
    ({| status := 400;
        response_body := GuestbookRefused "Name and message are required" |}, [], w).
Proof.
  intros Hbody Hmissing. unfold guestbook_post. rewrite Hbody.
  destruct Hmissing as [-> | ->]; cbn; [| rewrite orb_true_r]; reflexivity.
Qed.

(** C4. A [tools/call] of [leave_message] whose arguments hold neither
    [name] nor [message] is not refused: [leaveMessage] runs, the entry is
    stored without a name and a message, the session is granted access and
    the response is the success payload, addressed to the word undefined. *)
Theorem leave_message_without_required_fields_runs :
  let rpc := tool_call 7 "leave_message" (Some no_arguments) in
  let '(response, logs, w) :=
    handleJsonRpc example_profile rpc example_key
      (example_request None (BodyRpc rpc)) (visited_world (Some ∅)) in
  let stored :=
    {| entry_name := None; entry_message := None; entry_agent_id := None;
       entry_contact := None; entry_timestamp := 1700000000000;
       entry_ip_hash := Some (Sha256Hex8 "203.0.113.7resume-mcp-salt") |} in
  response =
    JS.Normal
      {| id := IdNumber 7;
         result :=
           Some (ToolCallResult
                   (ValuePayload
                      (LeaveValue
                         {| success := true;
                            access_granted := true;
                            message := "Thanks, undefined! You now have access to all profile information." |}))
                   false);
         error := None |}
  /\ logs = [LogGuestbookEntry stored]
  /\ GUESTBOOK w =
       Some {[ "entry:1700000000001:3b241101-e2bb-4255-8caf-4136c566a962" := stored ]}
  /\ session_hasAccess example_key w = true.
Proof.
  vm_compute. repeat split.
Qed.

(* --------------------------------------------------------------------- *)
(** ** Skills by category                                                  *)
(* --------------------------------------------------------------------- *)

Lemma prototype_name_truthy (c : string) :
  In c JS.Object_prototype -> JS.truthy c = true /\ JS.includes JS.Object_prototype c = true.
Proof.
  cbn. intros H.
  repeat (destruct H as [<- | H]; [split; reflexivity |]).
  destruct H.
Qed.

(** A category that names a member of [Object.prototype] passes the [in]
    test although the skills object has no such key. *)
Lemma getSkills_inherited (profileData : ProfileData) (c : string) :
  In c JS.Object_prototype ->
  JS.own (skills profileData) c = None ->
  getSkills profileData (category_argument c) = [(c, JS.Inherited c)].
Proof.
  intros Hin Hown. destruct (prototype_name_truthy c Hin) as [Ht Hi].
  unfold getSkills, JS.has_property, JS.get; cbn [arg_category category_argument].
  rewrite Ht, Hown, Hi. reflexivity.
Qed.

(** A category that is neither a key of the skills object nor a name
    inherited from [Object.prototype] gives the whole object. *)
Lemma getSkills_unknown (profileData : ProfileData) (c : string) :
  JS.own (skills profileData) c = None ->
  JS.includes JS.Object_prototype c = false ->
  getSkills profileData (category_argument c) = whole (skills profileData).
Proof.
  intros Hown Hproto.
  unfold getSkills, JS.has_property; cbn [arg_category category_argument].
  rewrite Hown, Hproto, andb_false_r. reflexivity.
Qed.

(** A category that is a key of the skills object selects that key. *)
Lemma getSkills_known (profileData : ProfileData) (c : string) (v : list string) :
  JS.truthy c = true ->
  JS.own (skills profileData) c = Some v ->
  getSkills profileData (category_argument c) = [(c, JS.OwnValue v)].
Proof.
  intros Ht Hown.
  unfold getSkills, JS.has_property, JS.get; cbn [arg_category category_argument].
  rewrite Ht, Hown. reflexivity.
Qed.

(** C10. [toString] is not a category of the example skills, yet
    [get_skills(category="toString")] does not return the whole skills
    object: the [in] test finds the name on [Object.prototype] and the
    result has the single key [toString], bound to the inherited member. *)
Theorem get_skills_inherited_name_is_filtered :
  JS.own (skills example_profile) "toString" = None
  /\ getSkills example_profile (category_argument "toString") =
       [("toString", JS.Inherited "toString")]
  /\ getSkills example_profile (category_argument "toString") <>
       whole (skills example_profile).
Proof.
  repeat split; discriminate.
Qed.

(* --------------------------------------------------------------------- *)
(** ** Filters of the read-only tools                                      *)
(* --------------------------------------------------------------------- *)

Lemma filter_sublist {A : Type} (f : A -> bool) (l : list A) :
  sublist (List.filter f l) l.
Proof.
  induction l as [| a l IH]; cbn.
  - constructor.
  - destruct (f a); [apply sublist_skip | apply sublist_cons]; exact IH.
Qed.

Lemma includes_lowercase_stored (ts : list string) (x : string) :
  Forall (fun t => JS.toLowerCase t = t) ts ->
  JS.includes ts (JS.toLowerCase x) = tagged_ci ts x.
Proof.
  unfold JS.includes, tagged_ci.
  induction 1 as [| t ts Ht _ IH]; cbn; [reflexivity |].
  rewrite IH, Ht, String.eqb_sym. reflexivity.
Qed.

Lemma getProjects_tag (profileData : ProfileData) (x : string) :
  getProjects profileData (tag_argument x) =
    if JS.truthy x
    then List.filter (fun p => JS.includes (tags p) (JS.toLowerCase x))
                     (getProjects profileData no_arguments)
    else getProjects profileData no_arguments.
Proof.
  unfold getProjects; cbn. destruct (JS.truthy x); reflexivity.
Qed.

Lemma getWriting_limit (profileData : ProfileData) (n : Z) :
  getWriting profileData (limit_argument n) =
    if (0 <? n)%Z
    then firstn (Z.to_nat n) (getWriting profileData no_arguments)
    else getWriting profileData no_arguments.
Proof.
  unfold getWriting; cbn.
  destruct (Z.ltb_spec 0 n) as [Hpos | Hneg].
  - replace (n =? 0)%Z with false by (symmetry; apply Z.eqb_neq; lia). reflexivity.
  - rewrite andb_false_r. reflexivity.
Qed.

(** C7, as stated, fails on the example profile: the empty tag selects
    every project although none carries the empty tag; the stored tag [AI]
    is not found by the tag [ai]; and the limit 0 returns every article
    instead of none. *)
Lemma filters_as_stated_fail :
  getProjects example_profile (tag_argument "") <>
    List.filter (fun p => tagged_ci (tags p) "") (getProjects example_profile no_arguments)
  /\ getProjects example_profile (tag_argument "ai") <>
       List.filter (fun p => tagged_ci (tags p) "ai") (getProjects example_profile no_arguments)
  /\ getWriting example_profile (limit_argument 0) <>
       firstn 0 (getWriting example_profile no_arguments).
Proof.
  repeat split; vm_compute; discriminate.
Qed.

(** C7, amended.  A non-empty tag [x] selects, in the order of the store,
    exactly the projects whose tag list holds [x] in lower case (which is
    containment without regard to case when the stored tags are in lower
    case); the empty tag selects every project.  A limit [n > 0] keeps the
    first [n] articles, all of them when there are no more than [n]; a
    limit [n <= 0] keeps every article. *)
Theorem filters_amended (profileData : ProfileData) (x : string) (n : Z) :
  getProjects profileData (tag_argument x) =
    (if JS.truthy x
     then List.filter (fun p => JS.includes (tags p) (JS.toLowerCase x))
                      (getProjects profileData no_arguments)
     else getProjects profileData no_arguments)
  /\ sublist (getProjects profileData (tag_argument x))
             (getProjects profileData no_arguments)
  /\ (JS.truthy x = true ->
      Forall (fun p => Forall (fun t => JS.toLowerCase t = t) (tags p))
             (projects profileData) ->
      getProjects profileData (tag_argument x) =
        List.filter (fun p => tagged_ci (tags p) x)
                    (getProjects profileData no_arguments))
  /\ getWriting profileData (limit_argument n) =
       (if (0 <? n)%Z
        then firstn (Z.to_nat n) (getWriting profileData no_arguments)
        else getWriting profileData no_arguments)
  /\ ((Z.of_nat (length (getWriting profileData no_arguments)) <= n)%Z ->
      getWriting profileData (limit_argument n) = getWriting profileData no_arguments).
Proof.
  split; [apply getProjects_tag |].
  split.
  { rewrite getProjects_tag. destruct (JS.truthy x); [apply filter_sublist | reflexivity]. }
  split.
  { intros Ht Hlower. rewrite getProjects_tag, Ht.
    apply filter_ext_in. intros p Hp.
    apply includes_lowercase_stored.
    rewrite List.Forall_forall in Hlower. apply Hlower. exact Hp. }
  split; [apply getWriting_limit |].
  intros Hlen. rewrite getWriting_limit.
  destruct (0 <? n)%Z; [| reflexivity].
  apply firstn_all2. lia.
Qed.

(** The filters on the example profile: a tag in mixed case, a limit below
    and a limit above the number of articles. *)
Lemma filters_amended_example :
  getProjects example_profile (tag_argument "Math") =
    [ {| project_name := "engine"; tags := ["ai"; "math"]; featured := true |} ]
  /\ getWriting example_profile (limit_argument 2) =
       [ {| article_title := "first"; platform := "blog" |};
         {| article_title := "second"; platform := "dev.to" |} ]
  /\ getWriting example_profile (limit_argument 5) = writing example_profile.
Proof.
  destruct (filters_amended example_profile "Math" 2) as (Htag & _ & _ & Hlimit & _).
  destruct (filters_amended example_profile "Math" 5) as (_ & _ & _ & _ & Hall).
  split; [rewrite Htag; reflexivity |].
  split; [rewrite Hlimit; reflexivity |].
  apply Hall. cbn. lia.
Defined.

(* --------------------------------------------------------------------- *)
(** ** Sorting                                                             *)
(* --------------------------------------------------------------------- *)

Section SortFacts.
Context {A : Type} (cmp : A -> A -> Z).



Hypothesis cmp_trans :
  forall a b c, (cmp a b <= 0)%Z -> (cmp b c <= 0)%Z -> (cmp a c <= 0)%Z.
Hypothesis cmp_total :
  forall a b, (0 < cmp a b)%Z -> (cmp b a <= 0)%Z.



End SortFacts.

(* --------------------------------------------------------------------- *)
(** ** Guestbook listing                                                   *)
(* --------------------------------------------------------------------- *)












(** The listing of the example guestbook: the later entry first. *)
Example guestbook_entries_example :
  guestbook_entries example_guestbook =
    [ {| entry_name := Some "Grace"; entry_message := Some "hello";
         entry_agent_id := None; entry_contact := None;
         entry_timestamp := 1700000000499; entry_ip_hash := None |};
      {| entry_name := Some "Ada"; entry_message := Some "hi";
         entry_agent_id := None; entry_contact := None;
         entry_timestamp := 1700000000099; entry_ip_hash := None |} ].
Proof. vm_compute. reflexivity. Qed.

(* --------------------------------------------------------------------- *)
(** ** Leaving a message                                                   *)
(* --------------------------------------------------------------------- *)

Lemma grant_access_hasAccess (session : string) (w : World) :
  is_Some (sessionCache w !! session) ->
  session_hasAccess session (grant_access session w) = true.
Proof.
  intros [s Hs]. unfold session_hasAccess, grant_access; cbn.
  rewrite lookup_alter_eq, Hs. reflexivity.
Qed.


Lemma leaveMessage_resume_sessions (p : PendingMessage) (w : World) :
  sessionCache (snd (leaveMessage_resume p w)) = sessionCache w.
Proof.
  unfold leaveMessage_resume. destruct (GUESTBOOK w); reflexivity.
Qed.

Lemma leaveMessage_sessions (params : Arguments) (ip : string) (w : World) :
  sessionCache (snd (leaveMessage params ip w)) = sessionCache w.
Proof.
  unfold leaveMessage, leaveMessage_start. cbn [Date_now].
  rewrite leaveMessage_resume_sessions. reflexivity.
Qed.

Lemma leaveMessage_resume_known (p : PendingMessage) (session : string) (w : World) :
  is_Some (sessionCache w !! session) ->
  is_Some (sessionCache (snd (leaveMessage_resume p w)) !! session).
Proof. rewrite leaveMessage_resume_sessions. trivial. Qed.


(** A [tools/call] of [leave_message], run to completion. *)
Lemma leave_message_call (profileData : ProfileData) (i : RpcId) (a : Arguments)
    (session : string) (request : Request) (w : World) :
  handleJsonRpc profileData (call i "leave_message" (Some a)) session request w =
    let p := {| pending_params := a;
                pending_timestamp := clock w (ticks w);
                pending_ip := connecting_ip request |} in
    (JS.Normal (ok i (ToolCallResult (ValuePayload (LeaveValue (thanks (arg_name a)))) false)),
     [LogGuestbookEntry (entry_of p)],
     grant_access session (snd (leaveMessage_resume p (snd (Date_now w))))).
Proof.
  unfold handleJsonRpc, handleJsonRpc_start, handleToolCall_start; cbn.
  unfold leaveMessage_resume; cbn.
  destruct (GUESTBOOK w); reflexivity.
Qed.




(* --------------------------------------------------------------------- *)
(** ** The Agent-Token header                                              *)
(* --------------------------------------------------------------------- *)

Lemma get_or_create_known (session : string) (w : World) :
  is_Some (sessionCache (get_or_create session w) !! session).
Proof.
  unfold get_or_create. destruct (sessionCache w !! session) as [s |] eqn:Hs.
  - rewrite Hs. eauto.
  - cbn. rewrite lookup_insert_eq. eauto.
Qed.

Lemma grant_token_hasAccess (token session : string) (w : World) :
  is_Some (sessionCache w !! session) ->
  session_hasAccess session (grant_token token session w) = true.
Proof.
  intros [s Hs]. unfold session_hasAccess, grant_token; cbn.
  rewrite lookup_alter_eq, Hs. reflexivity.
Qed.

Section WithoutToken.
Variable profileData : ProfileData.
Variables (request : Request) (session : string).

Lemma start_batch_without_token (rpcs : list JsonRpcRequest) (w : World) :
  start_batch profileData rpcs session (without_token request) w =
    start_batch profileData rpcs session request w.
Proof.
  revert w. induction rpcs as [| rpc rest IH]; intros w; cbn; [reflexivity |].
  change (handleJsonRpc_start profileData rpc session (without_token request) w)
    with (handleJsonRpc_start profileData rpc session request w).
  destruct (handleJsonRpc_start profileData rpc session request w) as [c w'].
  rewrite IH. reflexivity.
Qed.

Lemma mcp_body_without_token (w : World) :
  mcp_body profileData (without_token request) session w =
    mcp_body profileData request session w.
Proof.
  unfold mcp_body. cbn [body without_token].
  destruct (body request) as [m | rpc | rpcs | n m]; try reflexivity.
  rewrite start_batch_without_token. reflexivity.
Qed.

End WithoutToken.

(** C3. A request with a non-empty [Agent-Token] header.  When the token
    decodes and declares an intent, the session's [hasAccess] is true in
    the world in which the body of the request, with all its [tools/call]
    entries, is then handled.  When decoding throws, or reading the intent
    throws or finds none, the token check leaves the world as it was and
    the response and the final world are those of the same request without
    the header; all that differs is the log line of a thrown error. *)
Theorem agent_token_checked_before_calls (profileData : ProfileData)
    (DecodedToken : Type)
    (decodeAgentTokenV0 : string -> JS.completion DecodedToken)
    (getIntentV1 : DecodedToken -> JS.completion (option Intent))
    (request : Request) (token : string) (w : World) :
  Agent_Token request = Some token ->
  JS.truthy token = true ->
  let session := getSessionKey request in
  let w0 := get_or_create session w in
  let post := mcp_post profileData DecodedToken decodeAgentTokenV0 getIntentV1 in
  let check := check_agent_token DecodedToken decodeAgentTokenV0 getIntentV1 in
  let declared :=
    match decodeAgentTokenV0 token with
    | JS.Normal decoded => getIntentV1 decoded
    | JS.Throw m => JS.Throw m
    end in
  match declared with
  | JS.Normal (Some intent) =>
      let w1 := snd (Date_now (grant_token token session w0)) in
      session_hasAccess session w1 = true
      /\ post request w =
           (let '(response, logs, w2) := mcp_body profileData request session w1 in
            (response, LogAgentVisit intent (clock w0 (ticks w0)) :: logs, w2))
  | JS.Normal None =>
      check request session w0 = ([], w0)
      /\ post request w = post (without_token request) w
  | JS.Throw m =>
      check request session w0 = ([LogInvalidToken m], w0)
      /\ post request w =
           (let '(response, logs, w2) := post (without_token request) w in
            (response, LogInvalidToken m :: logs, w2))
  end.
Proof.
  intros Htoken Htruthy session w0 post check declared.
  assert (Hbody : forall w', mcp_body profileData (without_token request) session w' =
                             mcp_body profileData request session w')
    by apply mcp_body_without_token.
  subst post check declared.
  unfold mcp_post, check_agent_token.
  change (getSessionKey (without_token request)) with (getSessionKey request).
  cbn [Agent_Token without_token]. fold session. fold w0.
  rewrite Htoken, Htruthy, Hbody.
  destruct (decodeAgentTokenV0 token) as [decoded | m].
  - destruct (getIntentV1 decoded) as [[intent |] | m].
    + split.
      * apply (grant_token_hasAccess token session w0), get_or_create_known.
      * cbn. destruct (mcp_body _ _ _ _) as [[response logs] w2]. reflexivity.
    + split; [reflexivity |].
      destruct (mcp_body _ _ _ _) as [[response logs] w2]. reflexivity.
    + split; [reflexivity |].
      destruct (mcp_body _ _ _ _) as [[response logs] w2]. reflexivity.
  - split; [reflexivity |].
    destruct (mcp_body _ _ _ _) as [[response logs] w2]. reflexivity.
Qed.

(** A token that decodes, presented with a call of a gated tool. *)
Lemma agent_token_example :
  let request :=
    example_request (Some "at0.demo") (BodyRpc (tool_call 1 "get_experience" None)) in
  let w0 := get_or_create example_key (example_world None) in
  let w1 := snd (Date_now (grant_token "at0.demo" example_key w0)) in
  session_hasAccess example_key w1 = true
  /\ mcp_post example_profile string example_decode example_intent request
              (example_world None) =
       (let '(response, logs, w2) := mcp_body example_profile request example_key w1 in
        (response,
         LogAgentVisit {| intentId := "recruiting-scan"; goal := "at0.demo";
                          mode := "read-only" |} (clock w0 (ticks w0)) :: logs,
         w2)).
Proof.
  exact (agent_token_checked_before_calls example_profile string example_decode
           example_intent
           (example_request (Some "at0.demo") (BodyRpc (tool_call 1 "get_experience" None)))
           "at0.demo" (example_world None) eq_refl eq_refl).
Defined.

(** A fresh caller who presents a token that decodes gets the gated
    experience at once. *)
Example token_opens_gated_tool :
  fst (fst (fetch example_profile string example_decode example_intent
              (example_request (Some "at0.demo")
                 (BodyRpc (tool_call 1 "get_experience" None)))
              (example_world None))) =
    respond (RpcResponse
               (ok (IdNumber 1)
                   (ToolCallResult
                      (ValuePayload (ExperienceValue (experience example_profile)))
                      false))).
Proof. vm_compute. reflexivity. Qed.

(** A fresh caller who presents a token that does not decode is answered
    as one who presents none: the gated tool is denied. *)
Example bad_token_is_no_token :
  fst (fst (fetch example_profile string example_decode example_intent
              (example_request (Some "not-a-token")
                 (BodyRpc (tool_call 1 "get_experience" None)))
              (example_world None))) =
    respond (RpcResponse
               (ok (IdNumber 1)
                   (ToolCallResult (DataPayload (denial "get_experience")) true))).
Proof. vm_compute. reflexivity. Qed.

(* --------------------------------------------------------------------- *)
(** ** Batches                                                             *)
(* --------------------------------------------------------------------- *)

Section Batch.
Variable profileData : ProfileData.
Variables (session : string) (request : Request).

Lemma handleJsonRpc_resume_response
    (s : Started JsonRpcResponse (RpcId * PendingMessage)) (w : World) :
  fst (fst (handleJsonRpc_resume s session w)) = settled_response s.
Proof.
  destruct s as [r | [i p]]; [reflexivity |].
  unfold handleJsonRpc_resume, handleToolCall_resume, leaveMessage_resume; cbn.
  destruct (GUESTBOOK w); reflexivity.
Qed.

Lemma alone_answer (rpc : JsonRpcRequest) (w : World) :
  alone profileData session request w rpc =
    answer (fst (handleJsonRpc_start profileData rpc session request w)).
Proof.
  unfold alone, handleJsonRpc.
  destruct (handleJsonRpc_start profileData rpc session request w) as [[s | m] w'];
    cbn; [| reflexivity].
  rewrite <- (handleJsonRpc_resume_response s w').
  destruct (handleJsonRpc_resume s session w') as [[r logs] w'']. reflexivity.
Qed.

(** The synchronous part of a call reads the session and the clock, and
    writes neither the session map nor the guestbook. *)
Lemma execute_start_sessions (tool : option string) (params : Arguments) (w : World) :
  sessionCache (snd (execute_start profileData tool params request w)) = sessionCache w.
Proof.
  unfold execute_start. destruct tool as [t |]; [| reflexivity].
  repeat (match goal with |- context [if ?b then _ else _] => destruct b end;
          try reflexivity).
Qed.

Lemma handleJsonRpc_start_sessions (rpc : JsonRpcRequest) (w : World) :
  sessionCache (snd (handleJsonRpc_start profileData rpc session request w)) =
    sessionCache w.
Proof.
  unfold handleJsonRpc_start.
  repeat (match goal with |- context [if ?b then _ else _] => destruct b end;
          try reflexivity).
  destruct (rpc_params rpc) as [toolParams |]; [| reflexivity].
  unfold handleToolCall_start.
  destruct (gated _ && _); [reflexivity |].
  rewrite <- (execute_start_sessions (call_name toolParams)
                (match call_arguments toolParams with
                 | Some a => a
                 | None => no_arguments
                 end) w).
  destruct (execute_start _ _ _ _ _) as [[r | p] w']; reflexivity.
Qed.

(** What a call answers depends on the world through [hasAccess] of the
    session only. *)
Lemma execute_start_answer (i : RpcId) (tool : option string) (params : Arguments)
    (w w' : World) :
  answer (JS.Normal
            match fst (execute_start profileData tool params request w) with
            | Settled r => Settled (tool_response i r)
            | Suspended p => Suspended (i, p)
            end) =
  answer (JS.Normal
            match fst (execute_start profileData tool params request w') with
            | Settled r => Settled (tool_response i r)
            | Suspended p => Suspended (i, p)
            end).
Proof.
  unfold execute_start. destruct tool as [t |]; [| reflexivity].
  repeat (match goal with |- context [if ?b then _ else _] => destruct b end;
          try reflexivity).
Qed.

Lemma handleJsonRpc_start_answer (rpc : JsonRpcRequest) (w w' : World) :
  sessionCache w' = sessionCache w ->
  answer (fst (handleJsonRpc_start profileData rpc session request w')) =
    answer (fst (handleJsonRpc_start profileData rpc session request w)).
Proof.
  intros Hsame. unfold handleJsonRpc_start.
  repeat (match goal with |- context [if ?b then _ else _] => destruct b end;
          try reflexivity).
  destruct (rpc_params rpc) as [toolParams |]; [| reflexivity].
  unfold handleToolCall_start, session_hasAccess. rewrite Hsame.
  destruct (gated _ && _); [reflexivity |].
  pose proof (execute_start_answer (rpc_id rpc) (call_name toolParams)
                (match call_arguments toolParams with
                 | Some a => a
                 | None => no_arguments
                 end) w' w) as H.
  destruct (execute_start profileData _ _ request w') as [[r' | p'] w1'];
    destruct (execute_start profileData _ _ request w) as [[r | p] w1];
    exact H.
Qed.

Lemma start_batch_answers (rpcs : list JsonRpcRequest) (w w' : World) :
  sessionCache w' = sessionCache w ->
  map answer (fst (start_batch profileData rpcs session request w')) =
    map (alone profileData session request w) rpcs.
Proof.
  revert w'. induction rpcs as [| rpc rest IH]; intros w' Hsame; cbn; [reflexivity |].
  pose proof (handleJsonRpc_start_answer rpc w w' Hsame) as Hhead.
  pose proof (handleJsonRpc_start_sessions rpc w') as Hnext.
  destruct (handleJsonRpc_start profileData rpc session request w') as [c w1].
  cbn in Hhead, Hnext.
  specialize (IH w1 (eq_trans Hnext Hsame)).
  destruct (start_batch profileData rest session request w1) as [cs w2].
  cbn in IH |- *. rewrite IH, Hhead, alone_answer. reflexivity.
Qed.

Lemma all_started_answers
    (cs : list (JS.completion (Started JsonRpcResponse (RpcId * PendingMessage))))
    (l : list (Started JsonRpcResponse (RpcId * PendingMessage))) :
  all_started cs = JS.Normal l ->
  map answer cs = map JS.Normal (map settled_response l).
Proof.
  revert l. induction cs as [| [s | m] cs IH]; intros l; cbn.
  - intros [= <-]. reflexivity.
  - destruct (all_started cs) as [l' | m]; [| discriminate].
    intros [= <-]. cbn. rewrite (IH l' eq_refl). reflexivity.
  - discriminate.
Qed.

Lemma finish_batch_responses
    (l : list (Started JsonRpcResponse (RpcId * PendingMessage))) (w : World) :
  fst (fst (finish_batch l session w)) = map settled_response l.
Proof.
  revert w. induction l as [| s rest IH]; intros w; cbn; [reflexivity |].
  pose proof (handleJsonRpc_resume_response s w) as Hhead.
  destruct (handleJsonRpc_resume s session w) as [[r logs] w1].
  specialize (IH w1).
  destruct (finish_batch rest session w1) as [[rs logs'] w2].
  cbn in *. rewrite Hhead, IH. reflexivity.
Qed.

(** A request that has the [params] it reads does not throw. *)
Lemma alone_normal (rpc : JsonRpcRequest) (w : World) :
  has_params rpc ->
  exists r, alone profileData session request w rpc = JS.Normal r /\ id r = rpc_id rpc.
Proof.
  intros Hparams. rewrite alone_answer. unfold handleJsonRpc_start.
  repeat (match goal with |- context [if ?b then _ else _] => destruct b eqn:? end;
          try (eexists; split; reflexivity)).
  destruct Hparams as [toolParams ->]; [apply String.eqb_eq; assumption |].
  destruct (handleToolCall_start _ _ _ _ _ _) as [[[v | e] | p] w']; cbn;
    eexists; split; reflexivity.
Qed.

End Batch.

Ltac not_a_tool H :=
  repeat match goal with
         | |- context [String.eqb ?t ?s] =>
             destruct (String.eqb_spec t s) as [-> | _];
             [exfalso; apply H; cbn; tauto |]
         end.

(** A name outside the catalog reaches the [default] case of the [switch]:
    the error [handleToolCall] resolves to carries the code -32601. *)
Lemma unknown_tool_start (profileData : ProfileData) (t : string) (params : Arguments)
    (session : string) (request : Request) (w : World) :
  ~ In t tool_names ->
  handleToolCall_start profileData (Some t) params session request w =
    (Settled (Error {| error_code := -32601;
                       error_message := "Unknown tool: " +:+ t;
                       error_data := None |}), w).
Proof.
  intros Hunknown.
  unfold handleToolCall_start, execute_start, gated, Gated, JS.includes, GATED_TOOLS.
  cbn [existsb]. not_a_tool Hunknown. reflexivity.
Qed.

(** The response to it has a [result] and no [error]: the code is not part
    of what is serialised. *)
Lemma unknown_tool_alone (profileData : ProfileData) (i : RpcId) (t : string)
    (a : option Arguments) (session : string) (request : Request) (w : World) :
  ~ In t tool_names ->
  alone profileData session request w (call i t a) =
    JS.Normal (ok i (ToolCallResult (MessagePayload ("Unknown tool: " +:+ t)) true)).
Proof.
  intros Hunknown. unfold alone, handleJsonRpc, handleJsonRpc_start; cbn.
  rewrite (unknown_tool_start profileData t _ session request w Hunknown). reflexivity.
Qed.

Lemma all_started_normal
    (cs : list (JS.completion (Started JsonRpcResponse (RpcId * PendingMessage)))) :
  Forall (fun c => exists r, answer c = JS.Normal r) cs ->
  exists l, all_started cs = JS.Normal l.
Proof.
  induction 1 as [| c cs [r Hr] _ [l Hl]]; cbn; [eauto |].
  destruct c as [s | m]; [| discriminate]. rewrite Hl. eauto.
Qed.

Lemma alone_ids (profileData : ProfileData) (session : string) (request : Request)
    (w : World) (rpcs : list JsonRpcRequest) (responses : list JsonRpcResponse) :
  Forall has_params rpcs ->
  map JS.Normal responses = map (alone profileData session request w) rpcs ->
  map id responses = map rpc_id rpcs.
Proof.
  intros Hparams. revert responses.
  induction Hparams as [| rpc rest Hrpc _ IH]; intros [| r responses]; cbn;
    try discriminate; [reflexivity |].
  intros [= Hhead Htail].
  destruct (alone_normal profileData session request rpc w Hrpc) as (r' & Hr' & Hid).
  rewrite Hr' in Hhead. injection Hhead as ->.
  rewrite Hid, (IH responses Htail). reflexivity.
Qed.

(** C6, as stated, fails on a batch of three whose second entry names an
    unknown tool: the response to that entry has no [error] member, hence
    no method-not-found code; it is a [result] marked [isError] whose text
    is the message alone. *)
Lemma unknown_tool_response_has_no_error_code :
  let batch := [ tool_call 1 "get_profile" None;
                 tool_call 2 "nope" None;
                 tool_call 3 "get_writing" None ] in
  match response_body
          (fst (fst (fetch example_profile string example_decode example_intent
                       (example_request None (BodyBatch batch)) (example_world None))))
  with
  | RpcResponses [_; second; _] =>
      second = {| id := IdNumber 2;
                  result := Some (ToolCallResult (MessagePayload "Unknown tool: nope") true);
                  error := None |}
      /\ ~ (exists e, error second = Some e /\ code e = (-32601)%Z)
  | _ => False
  end.
Proof.
  vm_compute. split; [reflexivity |]. intros (e & He & _). discriminate He.
Qed.

(** C6, amended.  In a batch none of whose [tools/call] entries lacks its
    [params], every entry is answered as it would be alone in the world in
    which the batch starts; the responses are in the order of the batch and
    each carries the [id] of its entry.  An entry that names a tool outside
    the catalog is answered with a [result] marked [isError] whose text is
    the message [Unknown tool: ...]; the code -32601 is in the error
    [handleToolCall] resolves to and not in the response; the other entries
    are answered as if it were not there. *)
Theorem batch_entries_answered_independently (profileData : ProfileData)
    (session : string) (request : Request) (rpcs : list JsonRpcRequest) (w : World) :
  body request = BodyBatch rpcs ->
  Forall has_params rpcs ->
  exists responses logs w',
    mcp_body profileData request session w = (respond (RpcResponses responses), logs, w')
    /\ map JS.Normal responses = map (alone profileData session request w) rpcs
    /\ map id responses = map rpc_id rpcs
    /\ (forall n i t a,
          nth_error rpcs n = Some (call i t a) ->
          ~ In t tool_names ->
          nth_error responses n =
            Some (ok i (ToolCallResult (MessagePayload ("Unknown tool: " +:+ t)) true))
          /\ forall params w0,
               handleToolCall profileData (Some t) params session request w0 =
                 (Error {| error_code := -32601;
                           error_message := "Unknown tool: " +:+ t;
                           error_data := None |}, [], w0)).
Proof.
  intros Hbody Hparams.
  pose proof (start_batch_answers profileData session request rpcs w w eq_refl) as Hanswers.
  unfold mcp_body. rewrite Hbody.
  destruct (start_batch profileData rpcs session request w) as [cs w1]. cbn in Hanswers.
  destruct (all_started_normal cs) as [l Hl].
  { rewrite List.Forall_forall. intros c Hc.
    apply (in_map answer) in Hc. rewrite Hanswers in Hc.
    apply in_map_iff in Hc as (rpc & <- & Hrpc).
    rewrite List.Forall_forall in Hparams.
    destruct (alone_normal profileData session request rpc w (Hparams rpc Hrpc))
      as (r & -> & _).
    eauto. }
  rewrite Hl.
  pose proof (finish_batch_responses session l w1) as Hfinish.
  destruct (finish_batch l session w1) as [[responses logs] w2]. cbn in Hfinish.
  assert (Hall : map JS.Normal responses = map (alone profileData session request w) rpcs).
  { rewrite Hfinish, <- (all_started_answers cs l Hl). exact Hanswers. }
  exists responses, logs, w2.
  split; [reflexivity |]. split; [exact Hall |].
  split; [exact (alone_ids profileData session request w rpcs responses Hparams Hall) |].
  intros n i t a Hn Hunknown. split.
  - apply (f_equal (fun l => nth_error l n)) in Hall.
    rewrite !nth_error_map, Hn in Hall. cbn in Hall.
    rewrite (unknown_tool_alone profileData i t a session request w Hunknown) in Hall.
    destruct (nth_error responses n) as [r |]; [| discriminate Hall].
    cbn in Hall. injection Hall as ->. reflexivity.
  - intros params w0. unfold handleToolCall.
    rewrite (unknown_tool_start profileData t params session request w0 Hunknown).
    reflexivity.
Qed.

(** A batch of three whose second entry names no tool of the catalog. *)
Lemma batch_of_three_example :
  let batch := [ tool_call 1 "get_profile" None;
                 tool_call 2 "nope" None;
                 tool_call 3 "get_writing" None ] in
  let request := example_request None (BodyBatch batch) in
  exists responses logs w',
    mcp_body example_profile request example_key (visited_world None) =
      (respond (RpcResponses responses), logs, w')
    /\ map JS.Normal responses =
         map (alone example_profile example_key request (visited_world None)) batch
    /\ map id responses = [IdNumber 1; IdNumber 2; IdNumber 3]
    /\ nth_error responses 1 =
         Some (ok (IdNumber 2) (ToolCallResult (MessagePayload "Unknown tool: nope") true)).
Proof.
  cbv zeta.
  destruct (batch_entries_answered_independently example_profile example_key
              (example_request None
                 (BodyBatch [ tool_call 1 "get_profile" None;
                              tool_call 2 "nope" None;
                              tool_call 3 "get_writing" None ]))
              [ tool_call 1 "get_profile" None;
                tool_call 2 "nope" None;
                tool_call 3 "get_writing" None ]
              (visited_world None) eq_refl)
    as (responses & logs & w' & Hbody & Halone & Hids & Hunknown).
  { repeat constructor; intros _; eexists; reflexivity. }
  exists responses, logs, w'.
  split; [exact Hbody |]. split; [exact Halone |]. split; [exact Hids |].
  apply (Hunknown 1 (IdNumber 2) "nope" None eq_refl).
  cbn. intuition discriminate.
Defined.

(** In one batch, the gate of a gated call is checked before the
    [leave_message] ahead of it has resumed and granted access. *)
Example batch_gate_checked_before_grant :
  fst (fst (fetch example_profile string example_decode example_intent
              (example_request None
                 (BodyBatch
                    [ tool_call 1 "leave_message" (Some (message_arguments "Ada" "hi"));
                      tool_call 2 "get_skills" None ]))
              (example_world None))) =
    respond (RpcResponses
               [ ok (IdNumber 1)
                    (ToolCallResult (ValuePayload (LeaveValue (thanks (Some "Ada")))) false);
                 ok (IdNumber 2)
                    (ToolCallResult (DataPayload (denial "get_skills")) true) ]).
Proof. vm_compute. reflexivity. Qed.

(** A [tools/call] entry without [params] throws, and the whole batch is
    answered with the parse error. *)
Example batch_entry_without_params_aborts :
  fst (fst (fetch example_profile string example_decode example_intent
              (example_request None
                 (BodyBatch
                    [ {| rpc_id := IdNumber 1; rpc_method := "ping"; rpc_params := None |};
                      {| rpc_id := IdNumber 2; rpc_method := "tools/call";
                         rpc_params := None |} ]))
              (example_world None))) =
    parse_error "Cannot read properties of undefined (reading 'name')".
Proof. vm_compute. reflexivity. Qed.

(* --------------------------------------------------------------------- *)
(** ** Monotone access                                                     *)
(* --------------------------------------------------------------------- *)

Lemma access_kept_refl (w : World) : access_kept w w.
Proof. intros session H. exact H. Qed.

Lemma access_kept_trans (w1 w2 w3 : World) :
  access_kept w1 w2 -> access_kept w2 w3 -> access_kept w1 w3.
Proof. intros H12 H23 session H. apply H23, H12, H. Qed.

Lemma access_kept_same (w w' : World) :
  sessionCache w' = sessionCache w -> access_kept w w'.
Proof. intros Hsame session. unfold session_hasAccess. rewrite Hsame. trivial. Qed.

Lemma access_kept_grant_access (session : string) (w : World) :
  access_kept w (grant_access session w).
Proof.
  intros k. unfold session_hasAccess, grant_access; cbn.
  destruct (decide (session = k)) as [-> | Hne].
  - rewrite lookup_alter_eq. destruct (sessionCache w !! k); [reflexivity | trivial].
  - rewrite lookup_alter_ne by exact Hne. trivial.
Qed.

Lemma access_kept_grant_token (token session : string) (w : World) :
  access_kept w (grant_token token session w).
Proof.
  intros k. unfold session_hasAccess, grant_token; cbn.
  destruct (decide (session = k)) as [-> | Hne].
  - rewrite lookup_alter_eq. destruct (sessionCache w !! k); [reflexivity | trivial].
  - rewrite lookup_alter_ne by exact Hne. trivial.
Qed.

Lemma access_kept_get_or_create (session : string) (w : World) :
  access_kept w (get_or_create session w).
Proof.
  intros k. unfold session_hasAccess, get_or_create.
  destruct (sessionCache w !! session) eqn:Hs; [trivial |]. cbn.
  destruct (decide (session = k)) as [<- | Hne].
  - rewrite Hs. discriminate.
  - rewrite lookup_insert_ne by exact Hne. trivial.
Qed.

Section Monotone.
Variable profileData : ProfileData.
Variable DecodedToken : Type.
Variable decodeAgentTokenV0 : string -> JS.completion DecodedToken.
Variable getIntentV1 : DecodedToken -> JS.completion (option Intent).

Lemma access_kept_resume (s : Started JsonRpcResponse (RpcId * PendingMessage))
    (session : string) (w : World) :
  access_kept w (snd (handleJsonRpc_resume s session w)).
Proof.
  destruct s as [r | [i p]]; [apply access_kept_refl |].
  unfold handleJsonRpc_resume, handleToolCall_resume.
  pose proof (leaveMessage_resume_sessions p w) as Hsame.
  destruct (leaveMessage_resume p w) as [[r logs] w1]. cbn in Hsame |- *.
  eapply access_kept_trans; [apply access_kept_same, Hsame |].
  apply access_kept_grant_access.
Qed.

Lemma access_kept_finish_batch
    (l : list (Started JsonRpcResponse (RpcId * PendingMessage)))
    (session : string) (w : World) :
  access_kept w (snd (finish_batch l session w)).
Proof.
  revert w. induction l as [| s rest IH]; intros w; cbn; [apply access_kept_refl |].
  pose proof (access_kept_resume s session w) as Hhead.
  destruct (handleJsonRpc_resume s session w) as [[r logs] w1].
  specialize (IH w1).
  destruct (finish_batch rest session w1) as [[rs logs'] w2].
  cbn in *. eapply access_kept_trans; eassumption.
Qed.

Lemma start_batch_sessions (rpcs : list JsonRpcRequest) (session : string)
    (request : Request) (w : World) :
  sessionCache (snd (start_batch profileData rpcs session request w)) = sessionCache w.
Proof.
  revert w. induction rpcs as [| rpc rest IH]; intros w; cbn; [reflexivity |].
  pose proof (handleJsonRpc_start_sessions profileData session request rpc w) as Hhead.
  destruct (handleJsonRpc_start profileData rpc session request w) as [c w1].
  specialize (IH w1).
  destruct (start_batch profileData rest session request w1) as [cs w2].
  cbn in *. congruence.
Qed.

Lemma access_kept_handleJsonRpc (rpc : JsonRpcRequest) (session : string)
    (request : Request) (w : World) :
  access_kept w (snd (handleJsonRpc profileData rpc session request w)).
Proof.
  unfold handleJsonRpc.
  pose proof (handleJsonRpc_start_sessions profileData session request rpc w) as Hstart.
  destruct (handleJsonRpc_start profileData rpc session request w) as [[s | m] w1];
    cbn in Hstart.
  - pose proof (access_kept_resume s session w1) as Hresume.
    destruct (handleJsonRpc_resume s session w1) as [[r logs] w2]. cbn in *.
    eapply access_kept_trans; [apply access_kept_same, Hstart | exact Hresume].
  - apply access_kept_same, Hstart.
Qed.

Lemma access_kept_mcp_body (request : Request) (session : string) (w : World) :
  access_kept w (snd (mcp_body profileData request session w)).
Proof.
  unfold mcp_body. destruct (body request) as [m | rpc | rpcs | n m];
    try apply access_kept_refl.
  - pose proof (access_kept_handleJsonRpc rpc session request w) as H.
    destruct (handleJsonRpc profileData rpc session request w) as [[[r | m] logs] w1];
      exact H.
  - pose proof (start_batch_sessions rpcs session request w) as Hstart.
    destruct (start_batch profileData rpcs session request w) as [cs w1]. cbn in Hstart.
    destruct (all_started cs) as [l | m]; [| apply access_kept_same, Hstart].
    pose proof (access_kept_finish_batch l session w1) as Hfinish.
    destruct (finish_batch l session w1) as [[responses logs] w2]. cbn in *.
    eapply access_kept_trans; [apply access_kept_same, Hstart | exact Hfinish].
Qed.

Lemma access_kept_check_agent_token (request : Request) (session : string) (w : World) :
  access_kept w
    (snd (check_agent_token DecodedToken decodeAgentTokenV0 getIntentV1 request session w)).
Proof.
  unfold check_agent_token.
  destruct (Agent_Token request) as [token |]; [| apply access_kept_refl].
  destruct (JS.truthy token); [| apply access_kept_refl].
  destruct (decodeAgentTokenV0 token) as [decoded | m]; [| apply access_kept_refl].
  destruct (getIntentV1 decoded) as [[intent |] | m]; try apply access_kept_refl.
  cbn. eapply access_kept_trans; [apply (access_kept_grant_token token session) |].
  apply access_kept_same. reflexivity.
Qed.

Lemma access_kept_mcp_post (request : Request) (w : World) :
  access_kept w
    (snd (mcp_post profileData DecodedToken decodeAgentTokenV0 getIntentV1 request w)).
Proof.
  unfold mcp_post.
  pose proof (access_kept_get_or_create (getSessionKey request) w) as H0.
  set (w0 := get_or_create (getSessionKey request) w) in *.
  pose proof (access_kept_check_agent_token request (getSessionKey request) w0) as H1.
  destruct (check_agent_token _ _ _ request (getSessionKey request) w0) as [logs w1].
  pose proof (access_kept_mcp_body request (getSessionKey request) w1) as H2.
  destruct (mcp_body profileData request (getSessionKey request) w1)
    as [[response logs'] w2].
  cbn in *. eapply access_kept_trans; [exact H0 |].
  eapply access_kept_trans; eassumption.
Qed.

Lemma access_kept_guestbook_post (request : Request) (w : World) :
  access_kept w (snd (guestbook_post request w)).
Proof.
  unfold guestbook_post.
  destruct (body request) as [m | rpc | rpcs | n m]; try apply access_kept_refl.
  destruct (negb _ || negb _); [apply access_kept_refl |].
  match goal with
  | |- context [leaveMessage ?a ?ip ?w1] =>
      pose proof (leaveMessage_sessions a ip w1) as Hsame;
      destruct (leaveMessage a ip w1) as [[r logs] w2]
  end.
  cbn in *. apply access_kept_same, Hsame.
Qed.

Lemma access_kept_fetch (request : Request) (w : World) :
  access_kept w
    (snd (fetch profileData DecodedToken decodeAgentTokenV0 getIntentV1 request w)).
Proof.
  unfold fetch.
  repeat (match goal with |- context [if ?b then _ else _] => destruct b end;
          try apply access_kept_refl).
  - apply access_kept_guestbook_post.
  - apply access_kept_mcp_post.
Qed.

Lemma access_kept_serve (requests : list Request) (w : World) :
  access_kept w
    (serve profileData DecodedToken decodeAgentTokenV0 getIntentV1 requests w).
Proof.
  revert w. induction requests as [| request rest IH]; intros w; cbn.
  - apply access_kept_refl.
  - eapply access_kept_trans; [apply access_kept_fetch | apply IH].
Qed.

End Monotone.

(* --------------------------------------------------------------------- *)
(** ** The remembered token is never read                                  *)
(* --------------------------------------------------------------------- *)

Lemma alike_refl (w : World) : alike w w.
Proof. repeat split. Qed.

Lemma alike_trans (w1 w2 w3 : World) : alike w1 w2 -> alike w2 w3 -> alike w1 w3.
Proof.
  intros (? & ? & ? & ? & ? & ?) (? & ? & ? & ? & ? & ?).
  repeat split; congruence.
Qed.

Lemma alike_lookup (k : string) (w w' : World) :
  alike w w' ->
  hasAccess <$> sessionCache w !! k = hasAccess <$> sessionCache w' !! k.
Proof.
  intros (Hc & _). apply (f_equal (fun m => m !! k)) in Hc.
  rewrite !lookup_fmap in Hc. exact Hc.
Qed.

Lemma alike_hasAccess (k : string) (w w' : World) :
  alike w w' -> session_hasAccess k w = session_hasAccess k w'.
Proof.
  intros H. apply (alike_lookup k) in H. unfold session_hasAccess.
  destruct (sessionCache w !! k), (sessionCache w' !! k); cbn in H; congruence.
Qed.

(** Replacing the session map by one with the same access flags. *)
Lemma alike_sessions (c c' : gmap string SessionState) (w w' : World) :
  alike w w' ->
  hasAccess <$> c = hasAccess <$> c' ->
  alike (with_sessionCache c w) (with_sessionCache c' w').
Proof.
  intros (_ & ? & ? & ? & ? & ?) Hc. repeat split; assumption.
Qed.

Lemma alike_alter (f g : SessionState -> SessionState) (k : string)
    (c c' : gmap string SessionState) :
  (forall s s', hasAccess s = hasAccess s' -> hasAccess (f s) = hasAccess (g s')) ->
  hasAccess <$> c = hasAccess <$> c' ->
  hasAccess <$> alter f k c = hasAccess <$> alter g k c'.
Proof.
  intros Hfg Hc. apply map_eq. intros j.
  apply (f_equal (fun m => m !! j)) in Hc. rewrite !lookup_fmap in Hc |- *.
  rewrite !lookup_alter. destruct (decide (k = j)) as [-> | _]; [| exact Hc].
  destruct (c !! j) as [s |], (c' !! j) as [s' |]; cbn in Hc |- *;
    try congruence.
  f_equal. apply Hfg. injection Hc as Hc. exact Hc.
Qed.

Lemma alike_grant_access (session : string) (w w' : World) :
  alike w w' -> alike (grant_access session w) (grant_access session w').
Proof.
  intros H. apply alike_sessions; [exact H |].
  apply alike_alter; [reflexivity | apply H].
Qed.

Lemma alike_grant_token (token session : string) (w w' : World) :
  alike w w' -> alike (grant_token token session w) (grant_token token session w').
Proof.
  intros H. apply alike_sessions; [exact H |].
  apply alike_alter; [reflexivity | apply H].
Qed.

(** The token grant on a session that has access: the worlds are alike. *)
Lemma alike_token_granted (token session : string) (w : World) :
  session_hasAccess session w = true -> alike (grant_token token session w) w.
Proof.
  intros Haccess. repeat split. cbn.
  apply map_eq. intros j. rewrite !lookup_fmap, lookup_alter.
  destruct (decide (session = j)) as [<- | _]; [| reflexivity].
  unfold session_hasAccess in Haccess.
  destruct (sessionCache w !! session); cbn; congruence.
Qed.

Lemma alike_get_or_create (session : string) (w w' : World) :
  alike w w' -> alike (get_or_create session w) (get_or_create session w').
Proof.
  intros H. pose proof (alike_lookup session w w' H) as Hk.
  unfold get_or_create.
  destruct (sessionCache w !! session), (sessionCache w' !! session);
    cbn in Hk; try discriminate; [exact H |].
  apply alike_sessions; [exact H |].
  rewrite !fmap_insert. f_equal. apply H.
Qed.

Lemma alike_Date_now (w w' : World) :
  alike w w' ->
  fst (Date_now w) = fst (Date_now w') /\ alike (snd (Date_now w)) (snd (Date_now w')).
Proof.
  intros (? & ? & ? & ? & ? & ?). cbn. repeat split; cbn; congruence.
Qed.

Lemma alike_leaveMessage_start (params : Arguments) (ip : string) (w w' : World) :
  alike w w' ->
  fst (leaveMessage_start params ip w) = fst (leaveMessage_start params ip w')
  /\ alike (snd (leaveMessage_start params ip w)) (snd (leaveMessage_start params ip w')).
Proof.
  intros (? & ? & ? & ? & ? & ?). unfold leaveMessage_start; cbn.
  repeat split; cbn; congruence.
Qed.

Lemma alike_leaveMessage_resume (p : PendingMessage) (w w' : World) :
  alike w w' ->
  fst (leaveMessage_resume p w) = fst (leaveMessage_resume p w')
  /\ alike (snd (leaveMessage_resume p w)) (snd (leaveMessage_resume p w')).
Proof.
  intros (? & Hg & ? & ? & ? & ?). unfold leaveMessage_resume.
  rewrite <- Hg. destruct (GUESTBOOK w) as [kv |] eqn:Hkv; cbn.
  - repeat split; cbn; congruence.
  - repeat split; cbn; congruence.
Qed.

Section Unobserved.
Variable profileData : ProfileData.
Variable DecodedToken : Type.
Variable decodeAgentTokenV0 : string -> JS.completion DecodedToken.
Variable getIntentV1 : DecodedToken -> JS.completion (option Intent).
Variables (session : string) (request : Request).

Lemma alike_leaveMessage (params : Arguments) (ip : string) (w w' : World) :
  alike w w' ->
  fst (leaveMessage params ip w) = fst (leaveMessage params ip w')
  /\ alike (snd (leaveMessage params ip w)) (snd (leaveMessage params ip w')).
Proof.
  intros H. unfold leaveMessage.
  destruct (alike_leaveMessage_start params ip w w' H) as [Hp Hw].
  destruct (leaveMessage_start params ip w) as [p w1],
           (leaveMessage_start params ip w') as [p' w1'].
  cbn in Hp, Hw. subst p'. apply alike_leaveMessage_resume, Hw.
Qed.

Lemma alike_execute_start (tool : option string) (params : Arguments) (w w' : World) :
  alike w w' ->
  fst (execute_start profileData tool params request w) =
    fst (execute_start profileData tool params request w')
  /\ alike (snd (execute_start profileData tool params request w))
           (snd (execute_start profileData tool params request w')).
Proof.
  intros H. unfold execute_start.
  destruct tool as [t |]; [| split; [reflexivity | exact H]].
  repeat (match goal with |- context [if ?b then _ else _] => destruct b end;
          try (split; [reflexivity | exact H])).
  destruct (alike_leaveMessage_start params
              (JS.or_else (CF_Connecting_IP request) "unknown") w w' H) as [Hp Hw].
  destruct (leaveMessage_start params _ w) as [p w1],
           (leaveMessage_start params _ w') as [p' w1'].
  cbn in Hp, Hw |- *. subst p'. split; [reflexivity | exact Hw].
Qed.

Lemma alike_handleToolCall_start (tool : option string) (params : Arguments)
    (w w' : World) :
  alike w w' ->
  fst (handleToolCall_start profileData tool params session request w) =
    fst (handleToolCall_start profileData tool params session request w')
  /\ alike (snd (handleToolCall_start profileData tool params session request w))
           (snd (handleToolCall_start profileData tool params session request w')).
Proof.
  intros H. unfold handleToolCall_start.
  rewrite (alike_hasAccess session w w' H).
  destruct (gated tool && negb (session_hasAccess session w'));
    [split; [reflexivity | exact H] | apply alike_execute_start, H].
Qed.

Lemma alike_handleToolCall_resume (p : PendingMessage) (w w' : World) :
  alike w w' ->
  fst (handleToolCall_resume p session w) = fst (handleToolCall_resume p session w')
  /\ alike (snd (handleToolCall_resume p session w))
           (snd (handleToolCall_resume p session w')).
Proof.
  intros H. unfold handleToolCall_resume.
  destruct (alike_leaveMessage_resume p w w' H) as [Hr Hw].
  destruct (leaveMessage_resume p w) as [[r logs] w1],
           (leaveMessage_resume p w') as [[r' logs'] w1'].
  cbn in Hr, Hw |- *. injection Hr as -> ->.
  split; [reflexivity | apply alike_grant_access, Hw].
Qed.

Lemma alike_handleJsonRpc_start (rpc : JsonRpcRequest) (w w' : World) :
  alike w w' ->
  fst (handleJsonRpc_start profileData rpc session request w) =
    fst (handleJsonRpc_start profileData rpc session request w')
  /\ alike (snd (handleJsonRpc_start profileData rpc session request w))
           (snd (handleJsonRpc_start profileData rpc session request w')).
Proof.
  intros H. unfold handleJsonRpc_start.
  repeat (match goal with |- context [if ?b then _ else _] => destruct b end;
          try (split; [reflexivity | exact H])).
  destruct (rpc_params rpc) as [toolParams |]; [| split; [reflexivity | exact H]].
  match goal with
  | |- context [handleToolCall_start _ ?t ?a _ _ w] =>
      destruct (alike_handleToolCall_start t a w w' H) as [Hs Hw];
      destruct (handleToolCall_start profileData t a session request w) as [s w1],
               (handleToolCall_start profileData t a session request w') as [s' w1']
  end.
  cbn in Hs, Hw. subst s'. destruct s as [r | p]; split; (reflexivity || exact Hw).
Qed.

Lemma alike_handleJsonRpc_resume
    (s : Started JsonRpcResponse (RpcId * PendingMessage)) (w w' : World) :
  alike w w' ->
  fst (handleJsonRpc_resume s session w) = fst (handleJsonRpc_resume s session w')
  /\ alike (snd (handleJsonRpc_resume s session w))
           (snd (handleJsonRpc_resume s session w')).
Proof.
  intros H. destruct s as [r | [i p]]; [split; [reflexivity | exact H] |].
  unfold handleJsonRpc_resume.
  destruct (alike_handleToolCall_resume p w w' H) as [Hr Hw].
  destruct (handleToolCall_resume p session w) as [[r logs] w1],
           (handleToolCall_resume p session w') as [[r' logs'] w1'].
  cbn in Hr, Hw |- *. injection Hr as -> ->. split; [reflexivity | exact Hw].
Qed.

Lemma alike_handleJsonRpc (rpc : JsonRpcRequest) (w w' : World) :
  alike w w' ->
  fst (handleJsonRpc profileData rpc session request w) =
    fst (handleJsonRpc profileData rpc session request w')
  /\ alike (snd (handleJsonRpc profileData rpc session request w))
           (snd (handleJsonRpc profileData rpc session request w')).
Proof.
  intros H. unfold handleJsonRpc.
  destruct (alike_handleJsonRpc_start rpc w w' H) as [Hs Hw].
  destruct (handleJsonRpc_start profileData rpc session request w) as [c w1],
           (handleJsonRpc_start profileData rpc session request w') as [c' w1'].
  cbn in Hs, Hw. subst c'. destruct c as [s | m]; [| split; [reflexivity | exact Hw]].
  destruct (alike_handleJsonRpc_resume s w1 w1' Hw) as [Hr Hw2].
  destruct (handleJsonRpc_resume s session w1) as [[r logs] w2],
           (handleJsonRpc_resume s session w1') as [[r' logs'] w2'].
  cbn in Hr, Hw2 |- *. injection Hr as -> ->. split; [reflexivity | exact Hw2].
Qed.

Lemma alike_start_batch (rpcs : list JsonRpcRequest) (w w' : World) :
  alike w w' ->
  fst (start_batch profileData rpcs session request w) =
    fst (start_batch profileData rpcs session request w')
  /\ alike (snd (start_batch profileData rpcs session request w))
           (snd (start_batch profileData rpcs session request w')).
Proof.
  revert w w'. induction rpcs as [| rpc rest IH]; intros w w' H; cbn.
  - split; [reflexivity | exact H].
  - destruct (alike_handleJsonRpc_start rpc w w' H) as [Hc Hw].
    destruct (handleJsonRpc_start profileData rpc session request w) as [c w1],
             (handleJsonRpc_start profileData rpc session request w') as [c' w1'].
    cbn in Hc, Hw. subst c'.
    destruct (IH w1 w1' Hw) as [Hcs Hw2].
    destruct (start_batch profileData rest session request w1) as [cs w2],
             (start_batch profileData rest session request w1') as [cs' w2'].
    cbn in Hcs, Hw2 |- *. subst cs'. split; [reflexivity | exact Hw2].
Qed.

Lemma alike_finish_batch
    (l : list (Started JsonRpcResponse (RpcId * PendingMessage))) (w w' : World) :
  alike w w' ->
  fst (finish_batch l session w) = fst (finish_batch l session w')
  /\ alike (snd (finish_batch l session w)) (snd (finish_batch l session w')).
Proof.
  revert w w'. induction l as [| s rest IH]; intros w w' H; cbn.
  - split; [reflexivity | exact H].
  - destruct (alike_handleJsonRpc_resume s w w' H) as [Hr Hw].
    destruct (handleJsonRpc_resume s session w) as [[r logs] w1],
             (handleJsonRpc_resume s session w') as [[r' logs'] w1'].
    cbn in Hr, Hw. injection Hr as -> ->.
    destruct (IH w1 w1' Hw) as [Hrs Hw2].
    destruct (finish_batch rest session w1) as [[rs logs2] w2],
             (finish_batch rest session w1') as [[rs' logs2'] w2'].
    cbn in Hrs, Hw2 |- *. injection Hrs as -> ->. split; [reflexivity | exact Hw2].
Qed.

Lemma alike_mcp_body (w w' : World) :
  alike w w' ->
  fst (mcp_body profileData request session w) =
    fst (mcp_body profileData request session w')
  /\ alike (snd (mcp_body profileData request session w))
           (snd (mcp_body profileData request session w')).
Proof.
  intros H. unfold mcp_body.
  destruct (body request) as [m | rpc | rpcs | n m];
    try (split; [reflexivity | exact H]).
  - destruct (alike_handleJsonRpc rpc w w' H) as [Hr Hw].
    destruct (handleJsonRpc profileData rpc session request w) as [[c logs] w1],
             (handleJsonRpc profileData rpc session request w') as [[c' logs'] w1'].
    cbn in Hr, Hw. injection Hr as -> ->.
    destruct c' as [r | m]; split; (reflexivity || exact Hw).
  - destruct (alike_start_batch rpcs w w' H) as [Hcs Hw].
    destruct (start_batch profileData rpcs session request w) as [cs w1],
             (start_batch profileData rpcs session request w') as [cs' w1'].
    cbn in Hcs, Hw. subst cs'.
    destruct (all_started cs) as [l | m]; [| split; [reflexivity | exact Hw]].
    destruct (alike_finish_batch l w1 w1' Hw) as [Hrs Hw2].
    destruct (finish_batch l session w1) as [[rs logs] w2],
             (finish_batch l session w1') as [[rs' logs'] w2'].
    cbn in Hrs, Hw2 |- *. injection Hrs as -> ->. split; [reflexivity | exact Hw2].
Qed.

Lemma alike_check_agent_token (w w' : World) :
  alike w w' ->
  fst (check_agent_token DecodedToken decodeAgentTokenV0 getIntentV1 request session w) =
    fst (check_agent_token DecodedToken decodeAgentTokenV0 getIntentV1 request session w')
  /\ alike
       (snd (check_agent_token DecodedToken decodeAgentTokenV0 getIntentV1 request session w))
       (snd (check_agent_token DecodedToken decodeAgentTokenV0 getIntentV1 request session w')).
Proof.
  intros H. unfold check_agent_token.
  destruct (Agent_Token request) as [token |]; [| split; [reflexivity | exact H]].
  destruct (JS.truthy token); [| split; [reflexivity | exact H]].
  destruct (decodeAgentTokenV0 token) as [decoded | m];
    [| split; [reflexivity | exact H]].
  destruct (getIntentV1 decoded) as [[intent |] | m];
    try (split; [reflexivity | exact H]).
  destruct (alike_Date_now _ _ (alike_grant_token token session w w' H)) as [Hnow Hw].
  destruct (Date_now (grant_token token session w)) as [now w1],
           (Date_now (grant_token token session w')) as [now' w1'].
  cbn in Hnow, Hw |- *. subst now'. split; [reflexivity | exact Hw].
Qed.

End Unobserved.

Section Indistinguishable.
Variable profileData : ProfileData.
Variable DecodedToken : Type.
Variable decodeAgentTokenV0 : string -> JS.completion DecodedToken.
Variable getIntentV1 : DecodedToken -> JS.completion (option Intent).

Lemma alike_mcp_post (request : Request) (w w' : World) :
  alike w w' ->
  fst (mcp_post profileData DecodedToken decodeAgentTokenV0 getIntentV1 request w) =
    fst (mcp_post profileData DecodedToken decodeAgentTokenV0 getIntentV1 request w')
  /\ alike
       (snd (mcp_post profileData DecodedToken decodeAgentTokenV0 getIntentV1 request w))
       (snd (mcp_post profileData DecodedToken decodeAgentTokenV0 getIntentV1 request w')).
Proof.
  intros H. unfold mcp_post.
  pose proof (alike_get_or_create (getSessionKey request) w w' H) as H0.
  destruct (alike_check_agent_token DecodedToken decodeAgentTokenV0 getIntentV1
              (getSessionKey request) request _ _ H0) as [Hlogs H1].
  destruct (check_agent_token _ _ _ request _ (get_or_create _ w)) as [logs w1],
           (check_agent_token _ _ _ request _ (get_or_create _ w')) as [logs' w1'].
  cbn in Hlogs, H1. subst logs'.
  destruct (alike_mcp_body profileData (getSessionKey request) request w1 w1' H1)
    as [Hr H2].
  destruct (mcp_body profileData request _ w1) as [[r logs2] w2],
           (mcp_body profileData request _ w1') as [[r' logs2'] w2'].
  cbn in Hr, H2 |- *. injection Hr as -> ->. split; [reflexivity | exact H2].
Qed.

Lemma alike_guestbook_post (request : Request) (w w' : World) :
  alike w w' ->
  fst (guestbook_post request w) = fst (guestbook_post request w')
  /\ alike (snd (guestbook_post request w)) (snd (guestbook_post request w')).
Proof.
  intros H. unfold guestbook_post.
  destruct (body request) as [m | rpc | rpcs | n m];
    try (split; [reflexivity | exact H]).
  destruct (negb _ || negb _); [split; [reflexivity | exact H] |].
  match goal with
  | |- context [leaveMessage ?a ?ip w] =>
      destruct (alike_leaveMessage a ip w w' H) as [Hr Hw];
      destruct (leaveMessage a ip w) as [[r logs] w1],
               (leaveMessage a ip w') as [[r' logs'] w1']
  end.
  cbn in Hr, Hw |- *. injection Hr as -> ->. split; [reflexivity | exact Hw].
Qed.

Lemma alike_guestbook_get (w w' : World) :
  alike w w' -> guestbook_get w = guestbook_get w'.
Proof.
  intros (_ & Hg & _). unfold guestbook_get. rewrite Hg. reflexivity.
Qed.

(** Worlds that are alike answer every request alike, and stay alike. *)
Lemma alike_fetch (request : Request) (w w' : World) :
  alike w w' ->
  fst (fetch profileData DecodedToken decodeAgentTokenV0 getIntentV1 request w) =
    fst (fetch profileData DecodedToken decodeAgentTokenV0 getIntentV1 request w')
  /\ alike
       (snd (fetch profileData DecodedToken decodeAgentTokenV0 getIntentV1 request w))
       (snd (fetch profileData DecodedToken decodeAgentTokenV0 getIntentV1 request w')).
Proof.
  intros H. unfold fetch.
  repeat (match goal with |- context [if ?b then _ else _] => destruct b end;
          try (split; [reflexivity | exact H])).
  - rewrite (alike_guestbook_get w w' H). split; [reflexivity | exact H].
  - apply alike_guestbook_post, H.
  - apply alike_mcp_post, H.
Qed.

Lemma alike_observe (requests : list Request) (w w' : World) :
  alike w w' ->
  observe profileData DecodedToken decodeAgentTokenV0 getIntentV1 requests w =
    observe profileData DecodedToken decodeAgentTokenV0 getIntentV1 requests w'.
Proof.
  revert w w'. induction requests as [| request rest IH]; intros w w' H; cbn;
    [reflexivity |].
  destruct (alike_fetch request w w' H) as [Hr Hw].
  destruct (fetch _ _ _ _ request w) as [[r logs] w1],
           (fetch _ _ _ _ request w') as [[r' logs'] w1'].
  cbn in Hr, Hw. injection Hr as -> ->. rewrite (IH w1 w1' Hw). reflexivity.
Qed.

End Indistinguishable.

(* --------------------------------------------------------------------- *)
(** ** Monotone and idempotent grant                                       *)
(* --------------------------------------------------------------------- *)

Lemma with_sessionCache_same (w : World) : with_sessionCache (sessionCache w) w = w.
Proof. destruct w. reflexivity. Qed.

(** Granting access to a session that has it changes nothing. *)
Lemma grant_access_granted (session : string) (w : World) :
  session_hasAccess session w = true -> grant_access session w = w.
Proof.
  unfold session_hasAccess, grant_access. intros Haccess.
  rewrite alter_id; [apply with_sessionCache_same |].
  intros [access token] Hs. rewrite Hs in Haccess. cbn in Haccess. subst access.
  reflexivity.
Qed.

(** A token presented by a session that has access changes the [hasAccess]
    of no session; it only replaces the token the session remembers. *)
Lemma grant_token_granted (token session k : string) (w : World) :
  session_hasAccess session w = true ->
  session_hasAccess k (grant_token token session w) = session_hasAccess k w.
Proof.
  unfold session_hasAccess, grant_token; cbn. intros Haccess.
  rewrite lookup_alter. destruct (decide (session = k)) as [<- | Hne]; [| reflexivity].
  destruct (sessionCache w !! session); [symmetry; exact Haccess | reflexivity].
Qed.

Lemma grant_token_twice (token session : string) (w : World) :
  grant_token token session (grant_token token session w) = grant_token token session w.
Proof.
  unfold grant_token; cbn. rewrite alter_alter_eq. reflexivity.
Qed.

(** C8. Along any sequence of requests, whatever their route, a session
    whose [hasAccess] is true keeps it true.  Granting access to such a
    session through [leave_message] leaves the world as it is.  Granting it
    through a token leaves [hasAccess] of every session as it is and only
    replaces the token the session remembers, which nothing reads: every
    later sequence of requests is answered, and logged, as without the
    grant. *)
Theorem has_access_monotone (profileData : ProfileData) (DecodedToken : Type)
    (decodeAgentTokenV0 : string -> JS.completion DecodedToken)
    (getIntentV1 : DecodedToken -> JS.completion (option Intent))
    (requests : list Request) (session : string) (w : World) :
  session_hasAccess session w = true ->
  session_hasAccess session
    (serve profileData DecodedToken decodeAgentTokenV0 getIntentV1 requests w) = true
  /\ grant_access session w = w
  /\ (forall token k,
        session_hasAccess k (grant_token token session w) = session_hasAccess k w)
  /\ (forall token,
        observe profileData DecodedToken decodeAgentTokenV0 getIntentV1 requests
                (grant_token token session w) =
          observe profileData DecodedToken decodeAgentTokenV0 getIntentV1 requests w).
Proof.
  intros Haccess.
  split; [apply (access_kept_serve profileData DecodedToken decodeAgentTokenV0
                   getIntentV1 requests w session Haccess) |].
  split; [apply grant_access_granted, Haccess |].
  split.
  - intros token k. apply grant_token_granted, Haccess.
  - intros token. apply alike_observe, alike_token_granted, Haccess.
Qed.

(** The example caller, once granted access, keeps it through a bad token,
    a guestbook listing and an unparseable body. *)
Lemma has_access_monotone_example :
  let granted :=
    snd (fetch example_profile string example_decode example_intent
           (example_request None
              (BodyRpc (call (IdNumber 1) "leave_message"
                          (Some (message_arguments "Ada" "hi")))))
           (example_world None)) in
  let later :=
    [ example_request (Some "not-a-token") (BodyRpc (tool_call 2 "get_skills" None));
      listing_request;
      example_request None (BodyInvalid "Unexpected token") ] in
  session_hasAccess example_key granted = true
  /\ session_hasAccess example_key
       (serve example_profile string example_decode example_intent later granted) = true
  /\ grant_access example_key granted = granted
  /\ observe example_profile string example_decode example_intent later
             (grant_token "at0.demo" example_key granted) =
       observe example_profile string example_decode example_intent later granted.
Proof.
  cbv zeta.
  assert (Hgranted :
            session_hasAccess example_key
              (snd (fetch example_profile string example_decode example_intent
                      (example_request None
                         (BodyRpc (call (IdNumber 1) "leave_message"
                                     (Some (message_arguments "Ada" "hi")))))
                      (example_world None))) = true) by (vm_compute; reflexivity).
  split; [exact Hgranted |].
  destruct (has_access_monotone example_profile string example_decode example_intent
              [ example_request (Some "not-a-token")
                  (BodyRpc (tool_call 2 "get_skills" None));
                listing_request;
                example_request None (BodyInvalid "Unexpected token") ]
              example_key _ Hgranted) as (Hlater & Hnoop & _ & Hsame).
  split; [exact Hlater |]. split; [exact Hnoop | apply Hsame].
Defined.

(* ===================================================================== *)
(** * Further properties of the handler                                    *)
(* ===================================================================== *)

(* --------------------------------------------------------------------- *)
(** ** The read-only executors                                             *)
(* --------------------------------------------------------------------- *)

Lemma includes_In (l : list string) (x : string) :
  JS.includes l x = true <-> In x l.
Proof.
  unfold JS.includes. rewrite existsb_exists. split.
  - intros (y & Hy & Heq). apply String.eqb_eq in Heq. subst y. exact Hy.
  - intros Hx. exists x. split; [exact Hx | apply String.eqb_refl].
Qed.


(** X1. [getProjects] returns, in the order of the store, exactly the
    projects that pass both filters: a non-empty [tag] keeps the projects
    whose tags hold it in lower case, a true [featured_only] keeps the
    featured ones; an absent, empty or false filter keeps everything. *)
Theorem getProjects_selects (profileData : ProfileData) (params : Arguments) :
  sublist (getProjects profileData params) (projects profileData)
  /\ forall p,
       In p (getProjects profileData params) <->
         In p (projects profileData)
         /\ (forall tag, arg_tag params = Some tag -> JS.truthy tag = true ->
                         In (JS.toLowerCase tag) (tags p))
         /\ (arg_featured_only params = Some true -> featured p = true).
Proof.
  unfold getProjects.
  set (tagged :=
         match arg_tag params with
         | Some tag =>
             if JS.truthy tag
             then List.filter (fun p => JS.includes (tags p) (JS.toLowerCase tag))
                              (projects profileData)
             else projects profileData
         | None => projects profileData
         end).
  assert (Htagged : sublist tagged (projects profileData)
                    /\ forall p, In p tagged <->
                         In p (projects profileData)
                         /\ (forall tag, arg_tag params = Some tag ->
                                         JS.truthy tag = true ->
                                         In (JS.toLowerCase tag) (tags p))).
  { subst tagged. destruct (arg_tag params) as [tag |].
    - destruct (JS.truthy tag) eqn:Ht.
      + split; [apply filter_sublist |]. intros p.
        rewrite filter_In, includes_In. split.
        * intros [Hin Htag]. split; [exact Hin |]. intros tag' [= <-] _. exact Htag.
        * intros [Hin Htag]. split; [exact Hin | exact (Htag tag eq_refl Ht)].
      + split; [reflexivity |]. intros p. split; [| tauto].
        intros Hin. split; [exact Hin |]. intros tag' [= <-] Ht'. congruence.
    - split; [reflexivity |]. intros p. split; [| tauto].
      intros Hin. split; [exact Hin |]. intros tag' [=]. }
  destruct Htagged as [Hsub Hin].
  destruct (arg_featured_only params) as [[|] |].
  - split; [etransitivity; [apply filter_sublist | exact Hsub] |].
    intros p. rewrite filter_In, Hin. split.
    + intros [[H1 H2] H3]. repeat split; auto.
    + intros (H1 & H2 & H3). repeat split; auto.
  - split; [exact Hsub |]. intros p. rewrite Hin. split.
    + intros [H1 H2]. repeat split; auto. discriminate.
    + intros (H1 & H2 & _). split; assumption.
  - split; [exact Hsub |]. intros p. rewrite Hin. split.
    + intros [H1 H2]. repeat split; auto. discriminate.
    + intros (H1 & H2 & _). split; assumption.
Qed.

(** The projects of the example profile tagged [ai] and featured. *)
Lemma getProjects_selects_example :
  In {| project_name := "engine"; tags := ["ai"; "math"]; featured := true |}
     (getProjects example_profile
        {| arg_tag := Some "AI"; arg_featured_only := Some true; arg_platform := None;
           arg_limit := None; arg_current_only := None; arg_category := None;
           arg_name := None; arg_message := None; arg_agent_id := None;
           arg_contact := None |}).
Proof.
  apply (proj2 (getProjects_selects example_profile _)). cbn.
  split; [auto |]. split; [intros tag [= <-] _; cbn; auto | reflexivity].
Defined.



(** X3. [getExperience] with a true [current_only] returns exactly the
    current positions, in the order of the store; otherwise it returns
    every position. *)
Theorem getExperience_selects (profileData : ProfileData) (params : Arguments) :
  sublist (getExperience profileData params) (experience profileData)
  /\ forall e,
       In e (getExperience profileData params) <->
         In e (experience profileData)
         /\ (arg_current_only params = Some true -> current e = true).
Proof.
  unfold getExperience. destruct (arg_current_only params) as [[|] |].
  - split; [apply filter_sublist |]. intros e. rewrite filter_In. tauto.
  - split; [reflexivity |]. intros e. split; [| tauto].
    intros Hin. split; [exact Hin | discriminate].
  - split; [reflexivity |]. intros e. split; [| tauto].
    intros Hin. split; [exact Hin | discriminate].
Qed.

(** The current position of the example profile. *)
Lemma getExperience_selects_example :
  In {| position_title := "engineer"; current := true |}
     (getExperience example_profile
        {| arg_tag := None; arg_featured_only := None; arg_platform := None;
           arg_limit := None; arg_current_only := Some true; arg_category := None;
           arg_name := None; arg_message := None; arg_agent_id := None;
           arg_contact := None |}).
Proof.
  apply (proj2 (getExperience_selects example_profile _)). cbn.
  split; [auto | reflexivity].
Defined.

(* --------------------------------------------------------------------- *)
(** ** The dispatcher                                                      *)
(* --------------------------------------------------------------------- *)

(** X4. A call of a free tool is never denied and never marked as an
    error: its response is a [result] with the value of the tool, and that
    value is the same whoever calls, from whatever session and world. *)
Theorem free_tool_never_denied (profileData : ProfileData) (i : RpcId) (t : string)
    (a : option Arguments) :
  Free t = true ->
  exists v,
    forall session request w,
      alone profileData session request w (call i t a) =
        JS.Normal (ok i (ToolCallResult (ValuePayload v) false)).
Proof.
  intros Hfree. apply includes_In in Hfree.
  destruct Hfree as [<- | [<- | [<- | [<- | []]]]].
  - eexists. intros session request w. reflexivity.
  - eexists. intros session request w. reflexivity.
  - eexists. intros session request w. reflexivity.
  - destruct a as [a |].
    + eexists. intros session request w. unfold alone.
      rewrite leave_message_call. reflexivity.
    + eexists. intros session request w. unfold alone, handleJsonRpc; cbn.
      unfold leaveMessage_resume; cbn. destruct (GUESTBOOK w); reflexivity.
Qed.

(** The projects are given to a caller without access. *)
Lemma free_tool_never_denied_example :
  exists v,
    forall session request w,
      alone example_profile session request w (call (IdNumber 1) "get_projects" None) =
        JS.Normal (ok (IdNumber 1) (ToolCallResult (ValuePayload v) false)).
Proof.
  exact (free_tool_never_denied example_profile (IdNumber 1) "get_projects" None eq_refl).
Defined.

(** X5. A call of a gated tool from a session that has access is answered
    with the value of its executor on the arguments given ([{}] when there
    are none); nothing is logged and the world stays as it is. *)
Theorem gated_call_answered (profileData : ProfileData) (i : RpcId)
    (a : option Arguments) (session : string) (request : Request) (w : World) :
  session_hasAccess session w = true ->
  handleJsonRpc profileData (call i "get_experience" a) session request w =
    (JS.Normal
       (ok i (ToolCallResult
                (ValuePayload
                   (ExperienceValue (getExperience profileData (arguments_or_empty a))))
                false)),
     [], w)
  /\ handleJsonRpc profileData (call i "get_skills" a) session request w =
       (JS.Normal
          (ok i (ToolCallResult
                   (ValuePayload
                      (SkillsValue (getSkills profileData (arguments_or_empty a))))
                   false)),
        [], w).
Proof.
  intros Haccess.
  split; unfold handleJsonRpc, handleJsonRpc_start, handleToolCall_start; cbn;
    rewrite Haccess; reflexivity.
Qed.

(** The example caller, after a message, reads the skills of a category. *)
Lemma gated_call_answered_example :
  let w :=
    snd (handleJsonRpc example_profile
           (call (IdNumber 1) "leave_message" (Some (message_arguments "Ada" "hi")))
           example_key (example_request None (BodyInvalid "")) (visited_world None)) in
  handleJsonRpc example_profile
      (call (IdNumber 2) "get_skills" (Some (category_argument "languages")))
      example_key (example_request None (BodyInvalid "")) w =
    (JS.Normal
       (ok (IdNumber 2)
           (ToolCallResult
              (ValuePayload
                 (SkillsValue [("languages", JS.OwnValue ["TypeScript"; "Rust"])]))
              false)),
     [], w).
Proof.
  cbv zeta.
  set (w := snd (handleJsonRpc example_profile _ example_key _ (visited_world None))).
  assert (Haccess : session_hasAccess example_key w = true) by (vm_compute; reflexivity).
  apply (proj2 (gated_call_answered example_profile (IdNumber 2)
                  (Some (category_argument "languages")) example_key
                  (example_request None (BodyInvalid "")) w Haccess)).
Defined.

Ltac by_method :=
  repeat match goal with
         | |- context [String.eqb ?m ?s] =>
             destruct (String.eqb_spec m s)
         end.

Ltac known_method :=
  match goal with
  | H : rpc_method _ = _ |- _ => rewrite H; cbn; tauto
  end.

(** X6. Every response [handleJsonRpc] resolves to carries the [id] of its
    request and exactly one of [result] and [error]: a [result] for the
    five methods it knows, whatever the tool call came to, and for any
    other method the error -32601 with the message
    [Method not found: <method>]. *)
Theorem response_envelope (profileData : ProfileData) (rpc : JsonRpcRequest)
    (session : string) (request : Request) (w w' : World) (r : JsonRpcResponse)
    (logs : list LogLine) :
  handleJsonRpc profileData rpc session request w = (JS.Normal r, logs, w') ->
  id r = rpc_id rpc
  /\ (In (rpc_method rpc) known_methods -> is_Some (result r) /\ error r = None)
  /\ (~ In (rpc_method rpc) known_methods ->
      result r = None
      /\ error r = Some {| code := -32601;
                           rpc_message := "Method not found: " +:+ rpc_method rpc;
                           data := None |}).
Proof.
  intros H.
  assert (Halone : alone profileData session request w rpc = JS.Normal r)
    by (unfold alone; rewrite H; reflexivity).
  clear H. rewrite alone_answer in Halone. revert Halone.
  unfold handleJsonRpc_start, known_methods. by_method.
  1-3, 5: intros [= <-]; cbn; (split; [reflexivity |]);
    (split; [intros _; split; [eauto | reflexivity] | intros Hn; exfalso; apply Hn; known_method]).
  - destruct (rpc_params rpc) as [toolParams |]; [| discriminate].
    destruct (handleToolCall_start _ _ _ _ _ _) as [[[v | err] | p] w1];
      intros [= <-]; cbn; (split; [reflexivity |]);
      (split; [intros _; split; [eauto | reflexivity]
              | intros Hn; exfalso; apply Hn; known_method]).
  - intros [= <-]; cbn. split; [reflexivity |].
    split; [| intros _; split; reflexivity].
    intros [Hm | [Hm | [Hm | [Hm | [Hm | []]]]]]; congruence.
Qed.

(** The response to a method the handler does not know. *)
Lemma response_envelope_example :
  let rpc := {| rpc_id := IdString "a"; rpc_method := "resources/list";
                rpc_params := None |} in
  let r := method_not_found (IdString "a") "resources/list" in
  handleJsonRpc example_profile rpc example_key (example_request None (BodyRpc rpc))
                (visited_world None) = (JS.Normal r, [], visited_world None)
  /\ id r = IdString "a"
  /\ result r = None
  /\ error r = Some {| code := -32601;
                       rpc_message := "Method not found: resources/list";
                       data := None |}.
Proof.
  cbv zeta.
  assert (H : handleJsonRpc example_profile
                {| rpc_id := IdString "a"; rpc_method := "resources/list";
                   rpc_params := None |}
                example_key
                (example_request None
                   (BodyRpc {| rpc_id := IdString "a"; rpc_method := "resources/list";
                               rpc_params := None |}))
                (visited_world None) =
              (JS.Normal (method_not_found (IdString "a") "resources/list"), [],
               visited_world None)) by reflexivity.
  split; [exact H |].
  destruct (response_envelope example_profile _ _ _ _ _ _ _ H) as (Hid & _ & Herr).
  split; [exact Hid |]. apply Herr. cbn. intuition discriminate.
Defined.

(** X8. The methods other than [tools/call] are answered without reading
    or writing the world: the response is the same for every session,
    request and world, nothing is logged and the world is left as it is. *)
Theorem protocol_methods_are_pure (profileData : ProfileData) (rpc : JsonRpcRequest) :
  rpc_method rpc <> "tools/call" ->
  exists r,
    forall session request w,
      handleJsonRpc profileData rpc session request w = (JS.Normal r, [], w).
Proof.
  intros Hm. unfold handleJsonRpc, handleJsonRpc_start.
  by_method; try contradiction; eexists; intros session request w; reflexivity.
Qed.

(** [tools/list] names the six tools to any caller. *)
Lemma protocol_methods_are_pure_example :
  exists r,
    forall session request w,
      handleJsonRpc example_profile
          {| rpc_id := IdNumber 2; rpc_method := "tools/list"; rpc_params := None |}
          session request w = (JS.Normal r, [], w).
Proof.
  apply protocol_methods_are_pure. discriminate.
Defined.

(* --------------------------------------------------------------------- *)
(** ** How the world evolves                                               *)
(* --------------------------------------------------------------------- *)

Lemma evolves_refl (session : string) (w : World) : evolves session w w.
Proof.
  split; [| intros k _; reflexivity].
  repeat split; try lia; [trivial |].
  destruct (GUESTBOOK w); trivial.
Qed.

Lemma moves_on_trans (w1 w2 w3 : World) :
  moves_on w1 w2 -> moves_on w2 w3 -> moves_on w1 w3.
Proof.
  intros (Hs & Hg & Hc & Hu & Ht & Hd) (Hs' & Hg' & Hc' & Hu' & Ht' & Hd').
  repeat split; try congruence; try lia.
  - intros k Hk. apply Hs', Hs, Hk.
  - destruct (GUESTBOOK w1), (GUESTBOOK w2), (GUESTBOOK w3); try contradiction; trivial.
    intros k Hk. apply Hg', Hg, Hk.
Qed.

Lemma evolves_trans (session : string) (w1 w2 w3 : World) :
  evolves session w1 w2 -> evolves session w2 w3 -> evolves session w1 w3.
Proof.
  intros [Hm Ht] [Hm' Ht']. split; [eapply moves_on_trans; eassumption |].
  intros k Hk. rewrite (Ht' k Hk). apply Ht, Hk.
Qed.

(** A step that leaves the sessions and the guestbook alone. *)
Lemma evolves_reads (session : string) (w w' : World) :
  sessionCache w' = sessionCache w ->
  GUESTBOOK w' = GUESTBOOK w ->
  clock w' = clock w ->
  uuids w' = uuids w ->
  ticks w <= ticks w' ->
  drawn w <= drawn w' ->
  evolves session w w'.
Proof.
  intros Hs Hg Hc Hu Ht Hd. split; [| intros k _; rewrite Hs; reflexivity].
  repeat split; try assumption.
  - intros k. rewrite Hs. trivial.
  - rewrite Hg. destruct (GUESTBOOK w); trivial.
Qed.

Lemma evolves_grant_access (session : string) (w : World) :
  evolves session w (grant_access session w).
Proof.
  split.
  - repeat split; cbn; try lia.
    + intros k Hk. apply lookup_alter_is_Some. exact Hk.
    + destruct (GUESTBOOK w); trivial.
  - intros k Hk. cbn. apply lookup_alter_ne. congruence.
Qed.

Lemma evolves_grant_token (token session : string) (w : World) :
  evolves session w (grant_token token session w).
Proof.
  split.
  - repeat split; cbn; try lia.
    + intros k Hk. apply lookup_alter_is_Some. exact Hk.
    + destruct (GUESTBOOK w); trivial.
  - intros k Hk. cbn. apply lookup_alter_ne. congruence.
Qed.

Lemma evolves_get_or_create (session : string) (w : World) :
  evolves session w (get_or_create session w).
Proof.
  unfold get_or_create. destruct (sessionCache w !! session) eqn:Hs;
    [apply evolves_refl |].
  split.
  - repeat split; cbn; try lia.
    + intros k Hk. rewrite lookup_insert_is_Some. destruct (decide (session = k)); auto.
    + destruct (GUESTBOOK w); trivial.
  - intros k Hk. cbn. apply lookup_insert_ne. congruence.
Qed.

Lemma evolves_leaveMessage_start (session : string) (params : Arguments) (ip : string)
    (w : World) :
  evolves session w (snd (leaveMessage_start params ip w)).
Proof. apply evolves_reads; cbn; try reflexivity; lia. Qed.

Lemma evolves_leaveMessage_resume (session : string) (p : PendingMessage) (w : World) :
  evolves session w (snd (leaveMessage_resume p w)).
Proof.
  unfold leaveMessage_resume. destruct (GUESTBOOK w) as [kv |] eqn:Hg; cbn.
  - split; [| intros k _; reflexivity].
    repeat split; cbn; try lia; [trivial |].
    rewrite Hg. intros k Hk. rewrite lookup_insert_is_Some.
    destruct (decide (entry_key (clock w (ticks w)) (uuids w (drawn w)) = k)); auto.
  - apply evolves_refl.
Qed.

Lemma evolves_leaveMessage (session : string) (params : Arguments) (ip : string)
    (w : World) :
  evolves session w (snd (leaveMessage params ip w)).
Proof.
  unfold leaveMessage.
  pose proof (evolves_leaveMessage_start session params ip w) as H1.
  destruct (leaveMessage_start params ip w) as [p w1]. cbn in H1.
  eapply evolves_trans; [exact H1 | apply evolves_leaveMessage_resume].
Qed.

Section Evolution.
Variable profileData : ProfileData.
Variable DecodedToken : Type.
Variable decodeAgentTokenV0 : string -> JS.completion DecodedToken.
Variable getIntentV1 : DecodedToken -> JS.completion (option Intent).

Lemma evolves_execute_start (session : string) (tool : option string)
    (params : Arguments) (request : Request) (w : World) :
  evolves session w (snd (execute_start profileData tool params request w)).
Proof.
  unfold execute_start. destruct tool as [t |]; [| apply evolves_refl].
  repeat (match goal with |- context [if ?b then _ else _] => destruct b end;
          try apply evolves_refl).
  pose proof (evolves_leaveMessage_start session params
                (JS.or_else (CF_Connecting_IP request) "unknown") w) as H.
  destruct (leaveMessage_start params _ w) as [p w1]. exact H.
Qed.

Lemma evolves_handleJsonRpc_start (session : string) (rpc : JsonRpcRequest)
    (request : Request) (w : World) :
  evolves session w (snd (handleJsonRpc_start profileData rpc session request w)).
Proof.
  unfold handleJsonRpc_start.
  repeat (match goal with |- context [if ?b then _ else _] => destruct b end;
          try apply evolves_refl).
  destruct (rpc_params rpc) as [toolParams |]; [| apply evolves_refl].
  unfold handleToolCall_start.
  destruct (gated _ && _); [apply evolves_refl |].
  match goal with
  | |- context [execute_start _ ?t ?a _ _] =>
      pose proof (evolves_execute_start session t a request w) as H;
      destruct (execute_start profileData t a request w) as [[r | p] w1]
  end; exact H.
Qed.

Lemma evolves_handleJsonRpc_resume (session : string)
    (s : Started JsonRpcResponse (RpcId * PendingMessage)) (w : World) :
  evolves session w (snd (handleJsonRpc_resume s session w)).
Proof.
  destruct s as [r | [i p]]; [apply evolves_refl |].
  unfold handleJsonRpc_resume, handleToolCall_resume.
  pose proof (evolves_leaveMessage_resume session p w) as H.
  destruct (leaveMessage_resume p w) as [[r logs] w1]. cbn in H |- *.
  eapply evolves_trans; [exact H | apply evolves_grant_access].
Qed.

Lemma evolves_handleJsonRpc (session : string) (rpc : JsonRpcRequest)
    (request : Request) (w : World) :
  evolves session w (snd (handleJsonRpc profileData rpc session request w)).
Proof.
  unfold handleJsonRpc.
  pose proof (evolves_handleJsonRpc_start session rpc request w) as H1.
  destruct (handleJsonRpc_start profileData rpc session request w) as [[s | m] w1];
    cbn in H1; [| exact H1].
  pose proof (evolves_handleJsonRpc_resume session s w1) as H2.
  destruct (handleJsonRpc_resume s session w1) as [[r logs] w2]. cbn in H2 |- *.
  eapply evolves_trans; eassumption.
Qed.

Lemma evolves_start_batch (session : string) (rpcs : list JsonRpcRequest)
    (request : Request) (w : World) :
  evolves session w (snd (start_batch profileData rpcs session request w)).
Proof.
  revert w. induction rpcs as [| rpc rest IH]; intros w; cbn; [apply evolves_refl |].
  pose proof (evolves_handleJsonRpc_start session rpc request w) as H1.
  destruct (handleJsonRpc_start profileData rpc session request w) as [c w1].
  specialize (IH w1).
  destruct (start_batch profileData rest session request w1) as [cs w2].
  cbn in *. eapply evolves_trans; eassumption.
Qed.

Lemma evolves_finish_batch (session : string)
    (l : list (Started JsonRpcResponse (RpcId * PendingMessage))) (w : World) :
  evolves session w (snd (finish_batch l session w)).
Proof.
  revert w. induction l as [| s rest IH]; intros w; cbn; [apply evolves_refl |].
  pose proof (evolves_handleJsonRpc_resume session s w) as H1.
  destruct (handleJsonRpc_resume s session w) as [[r logs] w1].
  specialize (IH w1).
  destruct (finish_batch rest session w1) as [[rs logs'] w2].
  cbn in *. eapply evolves_trans; eassumption.
Qed.

Lemma evolves_mcp_body (session : string) (request : Request) (w : World) :
  evolves session w (snd (mcp_body profileData request session w)).
Proof.
  unfold mcp_body. destruct (body request) as [m | rpc | rpcs | n m];
    try apply evolves_refl.
  - pose proof (evolves_handleJsonRpc session rpc request w) as H.
    destruct (handleJsonRpc profileData rpc session request w) as [[[r | m] logs] w1];
      exact H.
  - pose proof (evolves_start_batch session rpcs request w) as H1.
    destruct (start_batch profileData rpcs session request w) as [cs w1]. cbn in H1.
    destruct (all_started cs) as [l | m]; [| exact H1].
    pose proof (evolves_finish_batch session l w1) as H2.
    destruct (finish_batch l session w1) as [[responses logs] w2]. cbn in *.
    eapply evolves_trans; eassumption.
Qed.

Lemma evolves_check_agent_token (session : string) (request : Request) (w : World) :
  evolves session w
    (snd (check_agent_token DecodedToken decodeAgentTokenV0 getIntentV1 request session w)).
Proof.
  unfold check_agent_token.
  destruct (Agent_Token request) as [token |]; [| apply evolves_refl].
  destruct (JS.truthy token); [| apply evolves_refl].
  destruct (decodeAgentTokenV0 token) as [decoded | m]; [| apply evolves_refl].
  destruct (getIntentV1 decoded) as [[intent |] | m]; try apply evolves_refl.
  cbn. eapply evolves_trans; [apply (evolves_grant_token token session) |].
  apply evolves_reads; cbn; try reflexivity; lia.
Qed.

Lemma evolves_mcp_post (request : Request) (w : World) :
  evolves (getSessionKey request) w
    (snd (mcp_post profileData DecodedToken decodeAgentTokenV0 getIntentV1 request w)).
Proof.
  unfold mcp_post.
  pose proof (evolves_get_or_create (getSessionKey request) w) as H0.
  set (w0 := get_or_create (getSessionKey request) w) in *.
  pose proof (evolves_check_agent_token (getSessionKey request) request w0) as H1.
  destruct (check_agent_token _ _ _ request (getSessionKey request) w0) as [logs w1].
  pose proof (evolves_mcp_body (getSessionKey request) request w1) as H2.
  destruct (mcp_body profileData request (getSessionKey request) w1)
    as [[response logs'] w2].
  cbn in *. eapply evolves_trans; [exact H0 |].
  eapply evolves_trans; eassumption.
Qed.

Lemma evolves_guestbook_post (session : string) (request : Request) (w : World) :
  evolves session w (snd (guestbook_post request w)).
Proof.
  unfold guestbook_post.
  destruct (body request) as [m | rpc | rpcs | n m]; try apply evolves_refl.
  destruct (negb _ || negb _); [apply evolves_refl |].
  match goal with
  | |- context [leaveMessage ?a ?ip ?w1] =>
      pose proof (evolves_leaveMessage session a ip w1) as H;
      destruct (leaveMessage a ip w1) as [[r logs] w2]
  end.
  exact H.
Qed.

Lemma evolves_fetch (request : Request) (w : World) :
  evolves (getSessionKey request) w
    (snd (fetch profileData DecodedToken decodeAgentTokenV0 getIntentV1 request w)).
Proof.
  unfold fetch.
  repeat (match goal with |- context [if ?b then _ else _] => destruct b end;
          try apply evolves_refl).
  - apply evolves_guestbook_post.
  - apply evolves_mcp_post.
Qed.

Lemma moves_on_serve (requests : list Request) (w : World) :
  moves_on w (serve profileData DecodedToken decodeAgentTokenV0 getIntentV1 requests w).
Proof.
  revert w. induction requests as [| request rest IH]; intros w; cbn.
  - apply (evolves_refl "" w).
  - eapply moves_on_trans; [apply (evolves_fetch request w) | apply IH].
Qed.

End Evolution.

(* --------------------------------------------------------------------- *)
(** ** Routes of the request handler                                       *)
(* --------------------------------------------------------------------- *)

Section Routes.
Variable profileData : ProfileData.
Variable DecodedToken : Type.
Variable decodeAgentTokenV0 : string -> JS.completion DecodedToken.
Variable getIntentV1 : DecodedToken -> JS.completion (option Intent).

Lemma fetch_mcp (request : Request) (w : World) :
  mcp_request request ->
  fetch profileData DecodedToken decodeAgentTokenV0 getIntentV1 request w =
    mcp_post profileData DecodedToken decodeAgentTokenV0 getIntentV1 request w.
Proof.
  intros [Hmethod Hpath]. unfold fetch. rewrite Hmethod.
  cbn [String.eqb Ascii.eqb Bool.eqb andb orb].
  repeat match goal with
         | |- context [String.eqb (pathname request) ?s] =>
             destruct (String.eqb_spec (pathname request) s) as [Heq | _];
             [exfalso; apply Hpath; rewrite Heq; cbn; tauto |]
         end.
  reflexivity.
Qed.

Lemma get_or_create_oracles (session : string) (w : World) :
  clock (get_or_create session w) = clock w
  /\ ticks (get_or_create session w) = ticks w
  /\ GUESTBOOK (get_or_create session w) = GUESTBOOK w.
Proof.
  unfold get_or_create. destruct (sessionCache w !! session); repeat split.
Qed.

(** A gated call that reaches the MCP endpoint from a session with access
    is answered. *)
Lemma experience_answered (request : Request) (j : RpcId) (b : option Arguments)
    (w : World) :
  mcp_request request ->
  body request = BodyRpc (call j "get_experience" b) ->
  session_hasAccess (getSessionKey request) w = true ->
  fst (fst (fetch profileData DecodedToken decodeAgentTokenV0 getIntentV1 request w)) =
    respond (RpcResponse
               (ok j (ToolCallResult
                        (ValuePayload
                           (ExperienceValue
                              (getExperience profileData (arguments_or_empty b))))
                        false))).
Proof.
  intros Hmcp Hbody Haccess. rewrite (fetch_mcp request w Hmcp). unfold mcp_post.
  pose proof (access_kept_get_or_create (getSessionKey request) w _ Haccess) as H0.
  set (w0 := get_or_create (getSessionKey request) w) in *.
  pose proof (access_kept_check_agent_token DecodedToken decodeAgentTokenV0 getIntentV1
                request (getSessionKey request) w0 _ H0) as H1.
  destruct (check_agent_token _ _ _ request (getSessionKey request) w0) as [logs w1].
  cbn in H1. unfold mcp_body. rewrite Hbody.
  unfold handleJsonRpc, handleJsonRpc_start, handleToolCall_start; cbn.
  rewrite H1. reflexivity.
Qed.

(** X9. A request changes no session but the one of its own key: whatever
    it carries, the sessions of all other callers are what they were. *)
Theorem fetch_touches_only_the_caller (request : Request) (w : World) (k : string) :
  k <> getSessionKey request ->
  sessionCache (snd (fetch profileData DecodedToken decodeAgentTokenV0 getIntentV1
      request w)) !! k = sessionCache w !! k.
Proof.
  intros Hk. apply (proj2 (evolves_fetch profileData DecodedToken decodeAgentTokenV0
                             getIntentV1 request w)). exact Hk.
Qed.

(** X10. Nothing is removed, whatever is requested: a session that exists
    still exists after any sequence of requests, a guestbook that is bound
    is still bound and holds every key it held, and an unbound guestbook
    stays unbound. *)
Theorem nothing_is_removed (requests : list Request) (w : World) :
  (forall k, is_Some (sessionCache w !! k) ->
             is_Some (sessionCache
               (serve profileData DecodedToken decodeAgentTokenV0 getIntentV1
                 requests w) !! k))
  /\ match GUESTBOOK w with
     | Some kv =>
         exists kv', GUESTBOOK
           (serve profileData DecodedToken decodeAgentTokenV0 getIntentV1
             requests w) = Some kv'
                     /\ forall k, is_Some (kv !! k) -> is_Some (kv' !! k)
     | None => GUESTBOOK (serve profileData DecodedToken decodeAgentTokenV0 getIntentV1
         requests w) = None
     end.
Proof.
  destruct (moves_on_serve profileData DecodedToken decodeAgentTokenV0 getIntentV1
              requests w) as (Hs & Hg & _).
  split; [exact Hs |].
  destruct (GUESTBOOK w) as [kv |], (GUESTBOOK
    (serve profileData DecodedToken decodeAgentTokenV0 getIntentV1
      requests w)) as [kv' |];
    try contradiction; eauto.
Qed.

(** X11. Only a [POST] changes anything: a request with any other method,
    and any request for the discovery document or the health check, is
    answered without a log line and leaves the world as it is. *)
Theorem only_post_changes_the_world (request : Request) (w : World) :
  http_method request <> "POST"
  \/ In (pathname request) ["/.well-known/mcp.json"; "/mcp.json"; "/health"] ->
  exists response, fetch profileData DecodedToken decodeAgentTokenV0 getIntentV1
      request w = (response, [], w).
Proof.
  intros H. unfold fetch.
  destruct (String.eqb (http_method request) "OPTIONS"); [eauto |].
  destruct (String.eqb_spec (pathname request) "/.well-known/mcp.json"); [cbn; eauto |].
  destruct (String.eqb_spec (pathname request) "/mcp.json"); [cbn; eauto |].
  cbn [orb].
  destruct (String.eqb_spec (pathname request) "/health"); [eauto |].
  destruct H as [Hmethod | [Hp | [Hp | [Hp | []]]]]; try congruence.
  destruct (String.eqb_spec (http_method request) "POST"); [contradiction |].
  rewrite andb_false_r.
  destruct (String.eqb (pathname request) "/api/guestbook" &&
            String.eqb (http_method request) "GET"); eauto.
Qed.

(** X12. The guestbook form, given a name and a message, answers with the
    same thanks as the tool, [access_granted] included, logs and stores the
    entry (when a namespace is bound), and grants nothing: no session is
    created or changed. *)
Theorem guestbook_form_grants_no_access (request : Request) (name message : string)
    (w : World) :
  http_method request = "POST" ->
  pathname request = "/api/guestbook" ->
  body request = BodyGuest (Some name) (Some message) ->
  JS.truthy name = true ->
  JS.truthy message = true ->
  let entry :=
    entry_for (message_arguments name message) (clock w (ticks w)) (connecting_ip request) in
  let '(response, logs, w') := fetch profileData DecodedToken decodeAgentTokenV0 getIntentV1
      request w in
  response = respond (GuestbookPosted (thanks (Some name)))
  /\ access_granted (thanks (Some name)) = true
  /\ logs = [LogGuestbookEntry entry]
  /\ sessionCache w' = sessionCache w
  /\ GUESTBOOK w' =
       match GUESTBOOK w with
       | Some kv =>
           Some (<[entry_key (clock w (1 + ticks w)) (uuids w (drawn w)) := entry]> kv)
       | None => None
       end.
Proof.
  intros Hmethod Hpath Hbody Hname Hmessage.
  unfold fetch, guestbook_post. rewrite Hmethod, Hpath, Hbody.
  cbn [String.eqb Ascii.eqb Bool.eqb andb orb JS.truthy_opt].
  rewrite Hname, Hmessage.
  unfold leaveMessage, leaveMessage_start, leaveMessage_resume; cbn.
  destruct (GUESTBOOK w) eqn:Hg; cbn; rewrite ?Hg; repeat split.
Qed.


Lemma leave_call_grants (i : RpcId) (a : option Arguments) (session : string)
    (request : Request) (w : World) :
  is_Some (sessionCache w !! session) ->
  session_hasAccess session
    (snd (handleJsonRpc profileData (call i "leave_message" a) session request w)) = true.
Proof.
  intros Hs.
  unfold handleJsonRpc, handleJsonRpc_start, handleToolCall_start; cbn.
  unfold leaveMessage_resume; cbn.
  destruct (GUESTBOOK w); cbn; apply grant_access_hasAccess; exact Hs.
Qed.

Lemma token_grants (request : Request) (token : string) (decoded : DecodedToken)
    (intent : Intent) (w : World) :
  Agent_Token request = Some token ->
  JS.truthy token = true ->
  decodeAgentTokenV0 token = JS.Normal decoded ->
  getIntentV1 decoded = JS.Normal (Some intent) ->
  session_hasAccess (getSessionKey request)
    (snd (mcp_post profileData DecodedToken decodeAgentTokenV0 getIntentV1
        request w)) = true.
Proof.
  intros Htoken Htruthy Hdecode Hintent. unfold mcp_post, check_agent_token.
  rewrite Htoken, Htruthy, Hdecode, Hintent. cbn [Date_now].
  match goal with
  | |- context [mcp_body _ _ ?k ?w1] =>
      pose proof (access_kept_mcp_body profileData request k w1 k) as H;
      destruct (mcp_body profileData request k w1) as [[response logs] w2]
  end.
  cbn in *. apply H.
  apply (grant_token_hasAccess token (getSessionKey request)
           (get_or_create (getSessionKey request) w)), get_or_create_known.
Qed.

(** X14. The token is looked at before the body is parsed: a request whose
    token declares an intent and whose body is not JSON is answered with
    the parse error, and has all the same logged the visit, granted access
    to the session and made it remember the token. *)
Theorem token_counts_before_the_body_is_parsed (request : Request)
    (token : string) (decoded : DecodedToken) (intent : Intent) (m : string)
    (w : World) :
  mcp_request request ->
  Agent_Token request = Some token ->
  JS.truthy token = true ->
  decodeAgentTokenV0 token = JS.Normal decoded ->
  getIntentV1 decoded = JS.Normal (Some intent) ->
  body request = BodyInvalid m ->
  let '(response, logs, w') := fetch profileData DecodedToken decodeAgentTokenV0 getIntentV1
      request w in
  response = parse_error m
  /\ logs = [LogAgentVisit intent (clock w (ticks w))]
  /\ sessionCache w' !! getSessionKey request =
       Some {| hasAccess := true; agentToken := Some token |}.
Proof.
  intros Hmcp Htoken Htruthy Hdecode Hintent Hbody.
  rewrite (fetch_mcp request w Hmcp). unfold mcp_post, check_agent_token, mcp_body.
  rewrite Htoken, Htruthy, Hdecode, Hintent, Hbody. cbn.
  destruct (get_or_create_oracles (getSessionKey request) w) as (-> & -> & _).
  split; [reflexivity |]. split; [reflexivity |].
  rewrite lookup_alter_eq.
  destruct (get_or_create_known (getSessionKey request) w) as [s ->]. reflexivity.
Qed.

(** X15. Access belongs to the session key, and the key is made of the
    address and the first fifty characters of the user agent only: once a
    request has left a message, a later request with the same key, whatever
    else it carries and whatever was served in between, is given the
    experience. *)
Theorem access_follows_the_session_key (r1 r2 : Request) (between : list Request)
    (i j : RpcId) (a b : option Arguments) (w : World) :
  mcp_request r1 ->
  body r1 = BodyRpc (call i "leave_message" a) ->
  mcp_request r2 ->
  body r2 = BodyRpc (call j "get_experience" b) ->
  connecting_ip r2 = connecting_ip r1 ->
  JS.slice0 50 (JS.or_else (User_Agent r2) "unknown") =
    JS.slice0 50 (JS.or_else (User_Agent r1) "unknown") ->
  fst (fst (fetch profileData DecodedToken decodeAgentTokenV0 getIntentV1
      r2 (serve profileData DecodedToken decodeAgentTokenV0 getIntentV1
          (r1 :: between) w))) =
    respond (RpcResponse
               (ok j (ToolCallResult
                        (ValuePayload
                           (ExperienceValue
                              (getExperience profileData (arguments_or_empty b))))
                        false))).
Proof.
  intros Hmcp1 Hbody1 Hmcp2 Hbody2 Hip Hua.
  assert (Hkey : getSessionKey r2 = getSessionKey r1).
  { unfold getSessionKey. unfold connecting_ip in Hip. rewrite Hip, Hua. reflexivity. }
  apply (experience_answered r2 j b _ Hmcp2 Hbody2). rewrite Hkey. cbn [serve].
  apply access_kept_serve.
  rewrite (fetch_mcp r1 w Hmcp1). unfold mcp_post.
  pose proof (get_or_create_known (getSessionKey r1) w) as H0.
  set (w0 := get_or_create (getSessionKey r1) w) in *.
  pose proof (proj1 (proj1 (evolves_check_agent_token DecodedToken decodeAgentTokenV0
                              getIntentV1 (getSessionKey r1) r1 w0)) _ H0) as H1.
  destruct (check_agent_token _ _ _ r1 (getSessionKey r1) w0) as [logs w1].
  cbn in H1. unfold mcp_body. rewrite Hbody1.
  pose proof (leave_call_grants i a (getSessionKey r1) r1 w1 H1) as H2.
  destruct (handleJsonRpc profileData _ (getSessionKey r1) r1 w1) as [[[r | m] logs'] w2];
    exact H2.
Qed.

(** X16. Access granted by a token outlives the request: once a request
    has presented a token that declares an intent, whatever its body, a
    later request with the same session key and no token, whatever was
    served in between, is given the experience. *)
Theorem token_access_outlives_the_request (r1 r2 : Request) (between : list Request)
    (token : string) (decoded : DecodedToken) (intent : Intent)
    (j : RpcId) (b : option Arguments) (w : World) :
  mcp_request r1 ->
  Agent_Token r1 = Some token ->
  JS.truthy token = true ->
  decodeAgentTokenV0 token = JS.Normal decoded ->
  getIntentV1 decoded = JS.Normal (Some intent) ->
  mcp_request r2 ->
  Agent_Token r2 = None ->
  getSessionKey r2 = getSessionKey r1 ->
  body r2 = BodyRpc (call j "get_experience" b) ->
  fst (fst (fetch profileData DecodedToken decodeAgentTokenV0 getIntentV1
      r2 (serve profileData DecodedToken decodeAgentTokenV0 getIntentV1
          (r1 :: between) w))) =
    respond (RpcResponse
               (ok j (ToolCallResult
                        (ValuePayload
                           (ExperienceValue
                              (getExperience profileData (arguments_or_empty b))))
                        false))).
Proof.
  intros Hmcp1 Htoken Htruthy Hdecode Hintent Hmcp2 _ Hkey Hbody2.
  apply (experience_answered r2 j b _ Hmcp2 Hbody2). rewrite Hkey. cbn [serve].
  apply access_kept_serve.
  rewrite (fetch_mcp r1 w Hmcp1).
  exact (token_grants r1 token decoded intent w Htoken Htruthy Hdecode Hintent).
Qed.

End Routes.

(* --------------------------------------------------------------------- *)
(** ** A batch that leaves a message                                       *)
(* --------------------------------------------------------------------- *)

Section BatchGrant.
Variable profileData : ProfileData.
Variables (session : string) (request : Request).

Lemma batch_starts (rpcs : list JsonRpcRequest) (w : World) :
  Forall has_params rpcs ->
  exists l, all_started (fst (start_batch profileData rpcs session request w)) = JS.Normal l.
Proof.
  intros Hparams. apply all_started_normal.
  rewrite List.Forall_forall. intros c Hc.
  apply (in_map answer) in Hc.
  rewrite (start_batch_answers profileData session request rpcs w w eq_refl) in Hc.
  apply in_map_iff in Hc as (rpc & <- & Hrpc).
  rewrite List.Forall_forall in Hparams.
  destruct (alone_normal profileData session request rpc w (Hparams rpc Hrpc))
    as (r & -> & _).
  eauto.
Qed.

Lemma batch_suspends (i : RpcId) (a : option Arguments) (rpcs : list JsonRpcRequest)
    (w : World) (l : list (Started JsonRpcResponse (RpcId * PendingMessage))) :
  all_started (fst (start_batch profileData rpcs session request w)) = JS.Normal l ->
  In (call i "leave_message" a) rpcs ->
  exists p, In (Suspended (i, p)) l.
Proof.
  revert w l. induction rpcs as [| rpc rest IH]; intros w l; cbn; [intros _ [] |].
  destruct (handleJsonRpc_start profileData rpc session request w) as [c w1] eqn:Hstart.
  specialize (IH w1).
  destruct (start_batch profileData rest session request w1) as [cs w2].
  cbn in IH |- *. destruct c as [s | m]; [| discriminate].
  destruct (all_started cs) as [l' |]; [| discriminate].
  intros [= <-] [-> | Hin].
  - unfold handleJsonRpc_start, handleToolCall_start in Hstart. cbn in Hstart.
    injection Hstart as <- _. eexists. left. reflexivity.
  - destruct (IH l' eq_refl Hin) as [p Hp]. exists p. right. exact Hp.
Qed.

Lemma finish_grants (i : RpcId) (p : PendingMessage)
    (l : list (Started JsonRpcResponse (RpcId * PendingMessage))) (w : World) :
  In (Suspended (i, p)) l ->
  is_Some (sessionCache w !! session) ->
  session_hasAccess session (snd (finish_batch l session w)) = true.
Proof.
  revert w. induction l as [| s rest IH]; intros w; cbn; [intros [] |].
  intros [-> | Hin] Hs.
  - pose proof (access_kept_finish_batch rest session) as Hrest.
    unfold handleJsonRpc_resume, handleToolCall_resume.
    pose proof (leaveMessage_resume_known p session w Hs) as Hknown.
    destruct (leaveMessage_resume p w) as [[r logs] w1]. cbn in Hknown |- *.
    specialize (Hrest (grant_access session w1) session
                  (grant_access_hasAccess session w1 Hknown)).
    destruct (finish_batch rest session (grant_access session w1)) as [[rs logs'] w2].
    exact Hrest.
  - pose proof (proj1 (proj1 (evolves_handleJsonRpc_resume session s w)) _ Hs) as Hs1.
    destruct (handleJsonRpc_resume s session w) as [[r logs] w1]. cbn in Hs1.
    specialize (IH w1 Hin Hs1).
    destruct (finish_batch rest session w1) as [[rs logs'] w2]. exact IH.
Qed.

End BatchGrant.

(** X17. A batch that holds a [leave_message] call, and no [tools/call]
    without [params], leaves the session of the caller with access, for
    the requests that follow. *)
Theorem batch_with_message_grants_afterwards (profileData : ProfileData)
    (DecodedToken : Type)
    (decodeAgentTokenV0 : string -> JS.completion DecodedToken)
    (getIntentV1 : DecodedToken -> JS.completion (option Intent))
    (request : Request) (rpcs : list JsonRpcRequest) (i : RpcId)
    (a : option Arguments) (w : World) :
  mcp_request request ->
  body request = BodyBatch rpcs ->
  Forall has_params rpcs ->
  In (call i "leave_message" a) rpcs ->
  session_hasAccess (getSessionKey request)
    (snd (fetch profileData DecodedToken decodeAgentTokenV0 getIntentV1 request w)) = true.
Proof.
  intros Hmcp Hbody Hparams Hin.
  rewrite (fetch_mcp profileData DecodedToken decodeAgentTokenV0 getIntentV1 request w Hmcp).
  unfold mcp_post.
  pose proof (get_or_create_known (getSessionKey request) w) as H0.
  set (w0 := get_or_create (getSessionKey request) w) in *.
  pose proof (proj1 (proj1 (evolves_check_agent_token DecodedToken decodeAgentTokenV0
                              getIntentV1 (getSessionKey request) request w0)) _ H0) as H1.
  destruct (check_agent_token _ _ _ request (getSessionKey request) w0) as [logs w1].
  cbn in H1. unfold mcp_body. rewrite Hbody.
  destruct (batch_starts profileData (getSessionKey request) request rpcs w1 Hparams)
    as [l Hl].
  pose proof (batch_suspends profileData (getSessionKey request) request i a rpcs w1 l Hl Hin)
    as [p Hp].
  pose proof (proj1 (proj1 (evolves_start_batch profileData (getSessionKey request)
                              rpcs request w1)) _ H1) as H2.
  destruct (start_batch profileData rpcs (getSessionKey request) request w1) as [cs w2].
  cbn in Hl, H2. rewrite Hl.
  pose proof (finish_grants (getSessionKey request) i p l w2 Hp H2) as H3.
  destruct (finish_batch l (getSessionKey request) w2) as [[responses logs'] w3].
  exact H3.
Qed.

(* --------------------------------------------------------------------- *)
(** ** The discovery document                                              *)
(* --------------------------------------------------------------------- *)

(** X18. The discovery document tells the gate as the dispatcher keeps it:
    of the tools it names, those it lists as gated are exactly the ones a
    session without access is denied, and those it lists as free are
    exactly the ones such a session is answered. *)
Theorem discovery_tells_the_gate (profileData : ProfileData) (asked request : Request)
    (t : string) (i : RpcId) (a : option Arguments) (session : string) (w : World) :
  In t (discovery_tools (discovery asked)) ->
  session_hasAccess session w = false ->
  (In t (access_gated (discovery asked)) <->
     alone profileData session request w (call i t a) =
       JS.Normal (ok i (ToolCallResult (DataPayload (denial t)) true)))
  /\ (In t (access_free (discovery asked)) <->
        exists v, alone profileData session request w (call i t a) =
                    JS.Normal (ok i (ToolCallResult (ValuePayload v) false))).
Proof.
  intros Hin Haccess.
  assert (Hvalue : In t FREE_TOOLS ->
            exists v, alone profileData session request w (call i t a) =
                        JS.Normal (ok i (ToolCallResult (ValuePayload v) false))).
  { intros [<- | [<- | [<- | [<- | []]]]]; eexists; reflexivity. }
  assert (Hdenied : In t GATED_TOOLS ->
            alone profileData session request w (call i t a) =
              JS.Normal (ok i (ToolCallResult (DataPayload (denial t)) true))).
  { intros [<- | [<- | []]];
      unfold alone, handleJsonRpc, handleJsonRpc_start, handleToolCall_start; cbn;
      rewrite Haccess; reflexivity. }
  assert (Hsplit : (In t FREE_TOOLS /\ ~ In t GATED_TOOLS)
                   \/ (In t GATED_TOOLS /\ ~ In t FREE_TOOLS)).
  { cbn in Hin |- *.
    destruct Hin as [<- | [<- | [<- | [<- | [<- | [<- | []]]]]]];
      [left | left | left | right | right | left];
      (split; [tauto | intuition discriminate]). }
  change (access_gated (discovery asked)) with GATED_TOOLS.
  change (access_free (discovery asked)) with FREE_TOOLS.
  destruct Hsplit as [[Hfree Hnot] | [Hgated Hnot]].
  - destruct (Hvalue Hfree) as [v Hv]. rewrite Hv. split; split.
    + intros H. contradiction.
    + intros [=].
    + intros _. exists v. reflexivity.
    + intros _. exact Hfree.
  - rewrite (Hdenied Hgated). split; split.
    + intros _. reflexivity.
    + intros _. exact Hgated.
    + intros H. contradiction.
    + intros (v & [=]).
Qed.

(* --------------------------------------------------------------------- *)
(** ** The hash of the address and the CORS headers                        *)
(* --------------------------------------------------------------------- *)

Lemma length_append (s t : string) :
  String.length (s +:+ t) = String.length s + String.length t.
Proof.
  induction s as [| c s IH]; [reflexivity |].
  change (String c s +:+ t) with (String c (s +:+ t)). cbn. rewrite IH. reflexivity.
Qed.

Lemma length_concat_hex (bytes : list N) :
  String.length (String.concat "" (map hex_byte bytes)) = 2 * length bytes.
Proof.
  induction bytes as [| b rest IH]; [reflexivity |].
  cbn [map String.concat length]. destruct (map hex_byte rest) as [| x xs] eqn:Hrest.
  - destruct rest; [reflexivity | discriminate].
  - rewrite !length_append, IH. cbn. lia.
Qed.

Lemma concat_hex_cons (b : N) (rest : list N) :
  String.concat "" (map hex_byte (b :: rest)) =
    hex_byte b +:+ String.concat "" (map hex_byte rest).
Proof.
  cbn [map String.concat]. destruct (map hex_byte rest) as [| x xs]; reflexivity.
Qed.

Lemma hex_digit_inj (x y : N) :
  (x < 16)%N -> (y < 16)%N -> hex_digit x = hex_digit y -> x = y.
Proof.
  intros Hx Hy.
  assert (Hx' : In x [0; 1; 2; 3; 4; 5; 6; 7; 8; 9; 10; 11; 12; 13; 14; 15]%N)
    by (cbn; lia).
  assert (Hy' : In y [0; 1; 2; 3; 4; 5; 6; 7; 8; 9; 10; 11; 12; 13; 14; 15]%N)
    by (cbn; lia).
  cbn in Hx', Hy'.
  repeat (destruct Hx' as [<- | Hx']; [| ]); try contradiction;
    repeat (destruct Hy' as [<- | Hy']; [| ]); try contradiction;
    cbn; intros H; first [reflexivity | discriminate H].
Qed.

Lemma hex_byte_inj (b b' : N) :
  (b < 256)%N -> (b' < 256)%N -> hex_byte b = hex_byte b' -> b = b'.
Proof.
  intros Hb Hb'. unfold hex_byte. intros [= Hhigh Hlow].
  apply hex_digit_inj in Hhigh; [| apply N.Div0.div_lt_upper_bound; lia ..].
  apply hex_digit_inj in Hlow; [| apply N.mod_lt; lia ..].
  rewrite (N.div_mod b 16), (N.div_mod b' 16) by lia. congruence.
Qed.

Lemma concat_hex_inj (l l' : list N) :
  Forall (fun b => (b < 256)%N) l ->
  Forall (fun b => (b < 256)%N) l' ->
  length l = length l' ->
  String.concat "" (map hex_byte l) = String.concat "" (map hex_byte l') ->
  l = l'.
Proof.
  intros Hl. revert l'. induction Hl as [| b rest Hb _ IH]; intros [| b' rest'] Hl' Hlen;
    try discriminate; [reflexivity |].
  inversion Hl' as [| ? ? Hb' Hrest']; subst.
  rewrite !concat_hex_cons. unfold hex_byte at 1 3.
  change (String ?c (String ?d EmptyString) +:+ ?s) with (String c (String d s)).
  intros [= Hhigh Hlow Htail].
  f_equal.
  - apply hex_byte_inj; [assumption .. |]. unfold hex_byte. congruence.
  - apply IH; [assumption | | assumption]. cbn in Hlen. lia.
Qed.

(** X19. The hash written into an entry is sixteen characters long, two
    hexadecimal digits for each of the first eight bytes of the digest, and
    it loses nothing of those bytes: two digests give the same hash exactly
    when their first eight bytes are the same. *)
Theorem digest_hex_faithful (h h' : list N) :
  8 <= length h ->
  8 <= length h' ->
  Forall (fun b => (b < 256)%N) h ->
  Forall (fun b => (b < 256)%N) h' ->
  String.length (digest_hex h) = 16
  /\ (digest_hex h = digest_hex h' <-> firstn 8 h = firstn 8 h').
Proof.
  intros Hlen Hlen' Hbytes Hbytes'. unfold digest_hex. split.
  - rewrite length_concat_hex, length_firstn. lia.
  - split; [| intros ->; reflexivity].
    apply concat_hex_inj.
    + apply Forall_take. exact Hbytes.
    + apply Forall_take. exact Hbytes'.
    + rewrite !length_firstn. lia.
Qed.

(** The hash of a digest of thirty-two bytes. *)
Lemma digest_hex_faithful_example :
  let h := [ 0; 1; 15; 16; 171; 205; 239; 255; 9; 9; 9; 9; 9; 9; 9; 9;
             9; 9; 9; 9; 9; 9; 9; 9; 9; 9; 9; 9; 9; 9; 9; 9 ]%N in
  digest_hex h = "00010f10abcdefff"
  /\ String.length (digest_hex h) = 16.
Proof.
  cbv zeta. split; [reflexivity |].
  apply (digest_hex_faithful _ (repeat 0%N 8)); cbn; try lia;
    repeat constructor.
Defined.

(** X20. The origin a response allows is never empty: it is the configured
    [CORS_ORIGIN] when that is a non-empty string, else the [Origin] of the
    request when that is one, else [*]; and [corsHeaders] sends it on as it
    is. *)
Theorem allowed_origin_never_empty (CORS_ORIGIN Origin : option string) :
  let o := allowed_origin CORS_ORIGIN Origin in
  JS.truthy o = true
  /\ header "Access-Control-Allow-Origin" (corsHeaders (Some o)) = Some o
  /\ o = (if JS.truthy_opt CORS_ORIGIN then JS.template CORS_ORIGIN
          else if JS.truthy_opt Origin then JS.template Origin
          else "*").
Proof.
  unfold allowed_origin, corsHeaders.
  destruct CORS_ORIGIN as [[| c cs] |], Origin as [[| o os] |]; cbn; repeat split.
Qed.

(* --------------------------------------------------------------------- *)
(** ** The further properties on the example deployment                    *)
(* --------------------------------------------------------------------- *)

Lemma mcp_request_as (agent : string) (token : option string) (b : Body) :
  mcp_request (request_as agent token b).
Proof. split; [reflexivity | cbn; intuition discriminate]. Qed.

(** A message of the example caller leaves the session of another caller
    as it is. *)
Lemma fetch_touches_only_the_caller_example :
  let w := get_or_create "198.51.100.4:browser" (example_world None) in
  let request :=
    example_request None
      (BodyRpc (tool_call 1 "leave_message" (Some (message_arguments "Ada" "hi")))) in
  sessionCache (snd (example_fetch request w)) !! "198.51.100.4:browser" =
    sessionCache w !! "198.51.100.4:browser".
Proof.
  cbv zeta.
  apply (fetch_touches_only_the_caller example_profile string example_decode
           example_intent).
  intros E. vm_compute in E. discriminate E.
Defined.

(** The listing of the guestbook changes nothing. *)
Lemma only_post_changes_the_world_example :
  exists response,
    example_fetch listing_request (example_world (Some example_guestbook)) =
      (response, [], example_world (Some example_guestbook)).
Proof.
  apply (only_post_changes_the_world example_profile string example_decode example_intent).
  left. cbn. discriminate.
Defined.

(** The form, posted by a caller the handler has seen: thanks, and the
    session still without access. *)
Lemma guestbook_form_grants_no_access_example :
  let w := get_or_create "203.0.113.7:browser" (example_world (Some ∅)) in
  let '(response, logs, w') := example_fetch (form_request (Some "Ada") (Some "hi")) w in
  response = respond (GuestbookPosted (thanks (Some "Ada")))
  /\ access_granted (thanks (Some "Ada")) = true
  /\ sessionCache w' = sessionCache w
  /\ session_hasAccess "203.0.113.7:browser" w' = false.
Proof.
  cbv zeta.
  pose proof (guestbook_form_grants_no_access example_profile string example_decode
                example_intent (form_request (Some "Ada") (Some "hi")) "Ada" "hi"
                (get_or_create "203.0.113.7:browser" (example_world (Some ∅)))
                eq_refl eq_refl eq_refl eq_refl eq_refl) as H.
  cbv zeta in H. unfold example_fetch.
  destruct (fetch _ _ _ _ _ _) as [[response logs] w'].
  destruct H as (Hresponse & Hgranted & _ & Hsessions & _).
  split; [exact Hresponse |]. split; [exact Hgranted |]. split; [exact Hsessions |].
  unfold session_hasAccess. rewrite Hsessions. reflexivity.
Defined.


(** A token that decodes, sent with a body that is not JSON. *)
Lemma token_counts_before_the_body_is_parsed_example :
  let request := request_as agent_alpha (Some "at0.demo") (BodyInvalid "Unexpected token") in
  let '(response, logs, w') := example_fetch request (example_world None) in
  response = parse_error "Unexpected token"
  /\ logs = [LogAgentVisit {| intentId := "recruiting-scan"; goal := "at0.demo";
                              mode := "read-only" |} 1700000000000]
  /\ sessionCache w' !! getSessionKey request =
       Some {| hasAccess := true; agentToken := Some "at0.demo" |}.
Proof.
  cbv zeta.
  exact (token_counts_before_the_body_is_parsed example_profile string example_decode
           example_intent
           (request_as agent_alpha (Some "at0.demo") (BodyInvalid "Unexpected token"))
           "at0.demo" "at0.demo" _ "Unexpected token" (example_world None)
           (mcp_request_as _ _ _) eq_refl eq_refl eq_refl eq_refl eq_refl).
Defined.

(** Two user agents that differ after their fiftieth character share the
    access one of them earned. *)
Lemma access_follows_the_session_key_example :
  let r1 :=
    request_as agent_alpha None
      (BodyRpc (tool_call 1 "leave_message" (Some (message_arguments "Ada" "hi")))) in
  let r2 :=
    request_as agent_beta (Some "not-a-token")
      (BodyRpc (tool_call 2 "get_experience" None)) in
  agent_alpha <> agent_beta
  /\ fst (fst (example_fetch r2 (example_serve [r1; listing_request] (example_world None)))) =
       respond (RpcResponse
                  (ok (IdNumber 2)
                      (ToolCallResult
                         (ValuePayload (ExperienceValue (experience example_profile)))
                         false))).
Proof.
  cbv zeta. split; [discriminate |].
  exact (access_follows_the_session_key example_profile string example_decode
           example_intent
           (request_as agent_alpha None
              (BodyRpc (tool_call 1 "leave_message" (Some (message_arguments "Ada" "hi")))))
           (request_as agent_beta (Some "not-a-token")
              (BodyRpc (tool_call 2 "get_experience" None)))
           [listing_request] (IdNumber 1) (IdNumber 2)
           (Some (message_arguments "Ada" "hi")) None (example_world None)
           (mcp_request_as _ _ _) eq_refl (mcp_request_as _ _ _) eq_refl eq_refl eq_refl).
Defined.

(** The token of one request opens the experience to a later one without. *)
Lemma token_access_outlives_the_request_example :
  let r1 := request_as agent_alpha (Some "at0.demo") (BodyInvalid "Unexpected token") in
  let r2 := request_as agent_alpha None (BodyRpc (tool_call 2 "get_experience" None)) in
  fst (fst (example_fetch r2 (example_serve [r1; listing_request] (example_world None)))) =
    respond (RpcResponse
               (ok (IdNumber 2)
                   (ToolCallResult
                      (ValuePayload (ExperienceValue (experience example_profile)))
                      false))).
Proof.
  cbv zeta.
  exact (token_access_outlives_the_request example_profile string example_decode
           example_intent
           (request_as agent_alpha (Some "at0.demo") (BodyInvalid "Unexpected token"))
           (request_as agent_alpha None (BodyRpc (tool_call 2 "get_experience" None)))
           [listing_request] "at0.demo" "at0.demo" _ (IdNumber 2) None (example_world None)
           (mcp_request_as _ _ _) eq_refl eq_refl eq_refl eq_refl
           (mcp_request_as _ _ _) eq_refl eq_refl eq_refl).
Defined.

(** A batch that asks for the skills and leaves a message: the skills are
    denied in the batch, and the session has access after it. *)
Lemma batch_with_message_grants_afterwards_example :
  let batch :=
    [ tool_call 1 "get_skills" None;
      tool_call 2 "leave_message" (Some (message_arguments "Ada" "hi")) ] in
  session_hasAccess example_key
    (snd (example_fetch (example_request None (BodyBatch batch)) (example_world None))) = true.
Proof.
  cbv zeta.
  apply (batch_with_message_grants_afterwards example_profile string example_decode
           example_intent
           (example_request None
              (BodyBatch
                 [ tool_call 1 "get_skills" None;
                   tool_call 2 "leave_message" (Some (message_arguments "Ada" "hi")) ]))
           [ tool_call 1 "get_skills" None;
             tool_call 2 "leave_message" (Some (message_arguments "Ada" "hi")) ]
           (IdNumber 2) (Some (message_arguments "Ada" "hi")) (example_world None)).
  - split; [reflexivity | cbn; intuition discriminate].
  - reflexivity.
  - repeat constructor; intros _; eexists; reflexivity.
  - right. left. reflexivity.
Defined.

(** The discovery document lists [get_skills] as gated, and a session
    without access is denied it. *)
Lemma discovery_tells_the_gate_example :
  let request := example_request None (BodyRpc (tool_call 1 "get_skills" None)) in
  In "get_skills" (access_gated (discovery listing_request))
  /\ alone example_profile example_key request (visited_world None)
           (call (IdNumber 1) "get_skills" None) =
       JS.Normal (ok (IdNumber 1) (ToolCallResult (DataPayload (denial "get_skills")) true)).
Proof.
  cbv zeta.
  destruct (discovery_tells_the_gate example_profile listing_request
              (example_request None (BodyRpc (tool_call 1 "get_skills" None)))
              "get_skills" (IdNumber 1) None example_key (visited_world None))
    as [Hgated _]; [cbn; tauto | reflexivity |].
  assert (Hin : In "get_skills" (access_gated (discovery listing_request)))
    by (cbn; tauto).
  split; [exact Hin | exact (proj1 Hgated Hin)].
Defined.

(** Whatever is served, the keys of the example guestbook stay. *)
Lemma nothing_is_removed_example :
  exists kv',
    GUESTBOOK
      (example_serve
         [ form_request (Some "Ada") (Some "hi");
           example_request None
             (BodyRpc (tool_call 1 "leave_message" (Some (message_arguments "Bo" "yo"))));
           listing_request ]
         (example_world (Some example_guestbook))) = Some kv'
    /\ forall k, is_Some (example_guestbook !! k) -> is_Some (kv' !! k).
Proof.
  exact (proj2 (nothing_is_removed example_profile string example_decode example_intent
                  [ form_request (Some "Ada") (Some "hi");
                    example_request None
                      (BodyRpc (tool_call 1 "leave_message"
                                  (Some (message_arguments "Bo" "yo"))));
                    listing_request ]
                  (example_world (Some example_guestbook)))).
Defined.

(** A configured origin that is the empty string gives way to the origin
    of the request. *)
Lemma allowed_origin_never_empty_example :
  allowed_origin (Some "") (Some "https://ada.example.dev") = "https://ada.example.dev"
  /\ header "Access-Control-Allow-Origin"
            (corsHeaders (Some (allowed_origin (Some "") None))) = Some "*".
Proof.
  destruct (allowed_origin_never_empty (Some "") (Some "https://ada.example.dev"))
    as (_ & _ & Hfirst).
  destruct (allowed_origin_never_empty (Some "") None) as (_ & Hheader & Hsecond).
  split; [exact Hfirst |]. rewrite Hheader, Hsecond. reflexivity.
Defined.

(* --------------------------------------------------------------------- *)
(** ** The guestbook form and the creation of sessions                     *)
(* --------------------------------------------------------------------- *)

Ltac refused :=
  cbn; split;
  [ split;
    [ discriminate
    | intros (? & ? & H & ? & ?); first [discriminate H | injection H as <- <-; congruence] ]
  | intros _; repeat split; eauto ].

(** X21. The guestbook form accepts a submission exactly when it holds a
    non-empty name and a non-empty message; any other body is refused with
    status 400, nothing is logged and the world stays as it is. *)
Theorem guestbook_form_validates (profileData : ProfileData) (DecodedToken : Type)
    (decodeAgentTokenV0 : string -> JS.completion DecodedToken)
    (getIntentV1 : DecodedToken -> JS.completion (option Intent))
    (request : Request) (w : World) :
  http_method request = "POST" ->
  pathname request = "/api/guestbook" ->
  let '(response, logs, w') :=
    fetch profileData DecodedToken decodeAgentTokenV0 getIntentV1 request w in
  (status response = 200%Z <->
     exists name message,
       body request = BodyGuest (Some name) (Some message)
       /\ JS.truthy name = true /\ JS.truthy message = true)
  /\ (status response <> 200%Z ->
      status response = 400%Z /\ logs = [] /\ w' = w
      /\ exists reason, response_body response = GuestbookRefused reason).
Proof.
  intros Hmethod Hpath. unfold fetch, guestbook_post. rewrite Hmethod, Hpath.
  cbn [String.eqb Ascii.eqb Bool.eqb andb orb].
  destruct (body request) as [m | rpc | rpcs | name message]; try refused.
  destruct name as [name |], message as [message |]; cbn [JS.truthy_opt];
    [destruct (JS.truthy name) eqn:Hn; destruct (JS.truthy message) eqn:Hm | ..];
    cbn [negb orb]; rewrite ?orb_true_r; try refused.
  match goal with
  | |- context [leaveMessage ?a ?ip w] => destruct (leaveMessage a ip w) as [[r logs] w1]
  end.
  cbn. split; [split; [eauto | reflexivity] | intros H; contradiction].
Qed.

(** The form without a message is refused. *)
Lemma guestbook_form_validates_example :
  example_fetch (form_request (Some "Ada") None) (example_world (Some ∅)) =
    ({| status := 400;
        response_body := GuestbookRefused "Name and message are required" |},
     [], example_world (Some ∅)).
Proof.
  pose proof (guestbook_form_validates example_profile string example_decode
                example_intent (form_request (Some "Ada") None) (example_world (Some ∅))
                eq_refl eq_refl) as H.
  unfold example_fetch.
  destruct (fetch _ _ _ _ _ _) as [[response logs] w'] eqn:Hfetch.
  destruct H as [_ H].
  assert (Hstatus : status response <> 200%Z).
  { apply (f_equal (fun x => status (fst (fst x)))) in Hfetch. cbn in Hfetch.
    rewrite <- Hfetch. discriminate. }
  destruct (H Hstatus) as (_ & -> & -> & _).
  apply (f_equal (fun x => fst (fst x))) in Hfetch. cbn in Hfetch. rewrite <- Hfetch.
  reflexivity.
Defined.

(** X22. Every request that reaches the MCP endpoint leaves a session
    under its key, also when its body cannot be parsed; a caller seen for
    the first time, with no token and such a body, is left with a session
    without access. *)
Theorem every_post_leaves_a_session (profileData : ProfileData) (DecodedToken : Type)
    (decodeAgentTokenV0 : string -> JS.completion DecodedToken)
    (getIntentV1 : DecodedToken -> JS.completion (option Intent))
    (request : Request) (w : World) :
  mcp_request request ->
  let w' := snd (fetch profileData DecodedToken decodeAgentTokenV0 getIntentV1 request w) in
  is_Some (sessionCache w' !! getSessionKey request)
  /\ (sessionCache w !! getSessionKey request = None ->
      Agent_Token request = None ->
      (exists m, body request = BodyInvalid m) ->
      sessionCache w' = <[getSessionKey request :=
                           {| hasAccess := false; agentToken := None |}]> (sessionCache w)).
Proof.
  intros Hmcp. cbv zeta.
  rewrite (fetch_mcp profileData DecodedToken decodeAgentTokenV0 getIntentV1 request w Hmcp).
  split.
  - unfold mcp_post.
    pose proof (get_or_create_known (getSessionKey request) w) as H0.
    set (w0 := get_or_create (getSessionKey request) w) in *.
    pose proof (proj1 (proj1 (evolves_check_agent_token DecodedToken decodeAgentTokenV0
                                getIntentV1 (getSessionKey request) request w0)) _ H0)
      as H1.
    destruct (check_agent_token _ _ _ request (getSessionKey request) w0) as [logs w1].
    cbn in H1.
    pose proof (proj1 (proj1 (evolves_mcp_body profileData (getSessionKey request)
                                request w1)) _ H1) as H2.
    destruct (mcp_body profileData request (getSessionKey request) w1)
      as [[response logs'] w2].
    exact H2.
  - intros Hnew Htoken [m Hbody].
    unfold mcp_post, check_agent_token, mcp_body, get_or_create.
    rewrite Hnew, Htoken, Hbody. reflexivity.
Qed.

(** A first request of the example caller, with a body that is not JSON. *)
Lemma every_post_leaves_a_session_example :
  let request := example_request None (BodyInvalid "Unexpected token") in
  sessionCache (snd (example_fetch request (example_world None))) =
    {[ example_key := {| hasAccess := false; agentToken := None |} ]}.
Proof.
  cbv zeta.
  destruct (every_post_leaves_a_session example_profile string example_decode
              example_intent (example_request None (BodyInvalid "Unexpected token"))
              (example_world None)) as [_ H].
  { split; [reflexivity | cbn; intuition discriminate]. }
  unfold example_fetch. rewrite H; [reflexivity | reflexivity | reflexivity | eauto].
Defined.
